(** * A shallow embedding of [lib/pytorch_trainer_v2_mod.py]

    The file embeds the training-loop harness of the repository and proves
    properties of it.  Embedded are
    - [DeepNetTrainer]: [__init__], [fit_loader], [load_state], [save_state]
      and [lr_find], with the module functions [save_trainer_state] and
      [load_trainer_state];
    - the [Callback] protocol, with the base class, [ModelCheckpoint], and
      one constructor for every subclass that only observes the trainer
      (as [PrintCallback] and [PlotCallback] do);
    - [SGDRestarts], driven through [on_train_begin] and [on_batch_begin]
      as a trainer drives it, or through [on_batch_begin] on its own; it is
      not among the callbacks of the embedded trainer.
    Not embedded: [fit], which only builds the two loaders from tensors and
    calls [fit_loader]; [evaluate_loader] and the [predict] family;
    [AccuracyMetric], which adds its own lists to the history and leaves the
    losses alone.

    Conventions of the embedding.
    - Python integers are [Z].  In [SGDRestarts] a Python float is an IEEE
      binary64 number, Rocq's primitive [float], so that a rate is rounded
      as the program rounds it; [math.cos] is a parameter of the schedule.
      In the trainer the losses, which the code adds up and compares, are
      exact rationals [Q], and the rates of [lr_find], which go through a
      fractional power, are real numbers [R]: there rounding, infinities
      and NaN are outside the model.
    - An attribute that the code may read before any assignment is an
      [option]: [None] is "attribute absent" and reading it raises
      [AttributeError].
    - Mutation is explicit state passing in a state-and-exception monad: an
      exception leaves the mutations made before it in place, as in Python.
    - The model, the criterion, the optimizer and the batches are external
      collaborators; they enter through the [Backend] interface.  Storage
      is a finite map from file names to contents.
    - Console output and plotting are not modelled. *)

From Stdlib Require Import ZArith QArith Qreals Reals Lra Lia List String.
From Stdlib Require Import Floats.
From stdpp Require Import gmap strings list.

Open Scope Z_scope.

(** A decimal float literal stands for the nearest binary64 number, as in
    Python. *)
Set Warnings "-inexact-float".

(** ** Python exceptions and outcomes *)

Inductive Exn : Type :=
| KeyboardInterrupt
| ZeroDivisionError
| AttributeError
| IndexError
| TypeError
| AssertionError
| FileNotFoundError
| RuntimeError (msg : string).

Inductive Outcome (A : Type) : Type :=
| Ok (a : A)
| Raise (e : Exn).

Arguments Ok {A} a.
Arguments Raise {A} e.

(** ** The state-and-exception monad

    A computation over a mutable store [S] returns a value or raises, and
    in both cases hands back the store as it stands at that point. *)

Section StateExn.
Context {S : Type}.

Definition M (A : Type) : Type := S -> Outcome A * S.

Definition ret {A} (a : A) : M A := fun s => (Ok a, s).

Definition bind {A B} (c : M A) (k : A -> M B) : M B :=
  fun s => match c s with
           | (Ok a, s') => k a s'
           | (Raise e, s') => (Raise e, s')
           end.

Definition raise {A} (e : Exn) : M A := fun s => (Raise e, s).

Definition get : M S := fun s => (Ok s, s).

Definition modify (f : S -> S) : M unit := fun s => (Ok tt, f s).

(** [lift o]: a pure computation that may raise. *)
Definition lift {A} (o : Outcome A) : M A := fun s => (o, s).

(** [for x in l: body x] *)
Fixpoint for_each {A} (l : list A) (body : A -> M unit) : M unit :=
  match l with
  | [] => ret tt
  | x :: l' => bind (body x) (fun _ => for_each l' body)
  end.

(** [try: c / except KeyboardInterrupt: pass] *)
Definition except_KeyboardInterrupt (c : M unit) : M unit :=
  fun s => match c s with
           | (Raise KeyboardInterrupt, s') => (Ok tt, s')
           | r => r
           end.

(** [try: c / except: raise / finally: h].  The handler runs on every
    exit; an exception of the handler replaces the pending one. *)
Definition finally {A} (c : M A) (h : M unit) : M A :=
  fun s => match c s with
           | (r, s') =>
               match h s' with
               | (Ok _, s'') => (r, s'')
               | (Raise e, s'') => (Raise e, s'')
               end
           end.
End StateExn.

Arguments M : clear implicits.

Declare Scope py_scope.
Delimit Scope py_scope with py.
Notation "x <- c ;; k" := (bind c (fun x => k))
  (at level 100, c at next level, right associativity) : py_scope.
Notation "c ;; k" := (bind c (fun _ => k))
  (at level 100, right associativity) : py_scope.
Open Scope py_scope.

(** ** Python list and number helpers *)

(** [range(a, b)] *)
Definition range (a b : Z) : list Z :=
  map (fun i => a + Z.of_nat i) (seq 0 (Z.to_nat (b - a))).

(** [enumerate(l)] *)
Definition enumerate {A} (l : list A) : list (Z * A) :=
  combine (map Z.of_nat (seq 0 (length l))) l.

(** [l[-1]] *)
Definition py_last {A} (l : list A) : Outcome A :=
  match last l with
  | Some x => Ok x
  | None => Raise IndexError
  end.

(** [len(l)] *)
Definition len {A} (l : list A) : Z := Z.of_nat (length l).

Definition Qltb (x y : Q) : bool := if Qlt_le_dec x y then true else false.

Definition Qis_zero (x : Q) : bool := Qeq_bool x 0.

(** ** Python floats

    A Python [float] is an IEEE binary64 number, here Rocq's primitive
    [float]: its operations round as the hardware does. *)

(** The conversion of an [int] to a [float]: the nearest float, ties to
    even.  Beyond the range of the floats it gives an infinity, where Python
    raises [OverflowError]. *)
Definition float_of_int (z : Z) : float :=
  SF2Prim (binary_normalize prec emax z 0 false).

(** The quotient of two integers rounded once to the nearest float, as the
    true division of two [int]s rounds it.  The numerator is scaled by
    [2 ^ k] so that the integer quotient has 64 bits or more, and a bit that
    tells whether the division left a remainder is appended to it.  Beyond
    the range of the floats it gives an infinity, where Python raises
    [OverflowError]. *)
Definition rounded_quotient (a b : Z) : float :=
  let n := Z.abs a in
  let d := Z.abs b in
  let k := Z.max 0 (Z.log2 d - Z.log2 n + 64) in
  let q := (n * 2 ^ k) / d in
  let sticky := if (n * 2 ^ k) mod d =? 0 then 0 else 1 in
  let neg := xorb (a <? 0) (b <? 0) in
  let m := 2 * q + sticky in
  SF2Prim (binary_normalize prec emax (if neg then - m else m) (- k - 1) neg).

(** [a / b] on two [int]s. *)
Definition int_truediv (a b : Z) : Outcome float :=
  if b =? 0 then Raise ZeroDivisionError else Ok (rounded_quotient a b).

Module math.

(** [math.pi] *)
Definition pi : float := 0x1.921fb54442d18p+1.


End math.

(** ** [class SGDRestarts(_LRScheduler, Callback)]

    [math.cos] is the cosine of the platform's C library; the schedule takes
    it as the parameter [cos]. *)

Module SGDRestarts.

(** One entry of [optimizer.param_groups]. *)
Record param_group : Type := {
  initial_lr : float;
  lr : float
}.

Record t : Type := {
  eta_min : float;
  To : Z;
  Ti : Z;
  Tmul : Z;
  restarts : Z;
  Tcur : Z;
  _n_batches : option Z;
  history : list float;
  last_epoch : Z;
  (** [self.optimizer.param_groups] *)
  param_groups : list param_group;
  (** [self.trainer.n_batches], absent until a trainer has set it *)
  trainer_n_batches : option Z
}.

Definition set_last_epoch (e : Z) (s : t) : t :=
  {| eta_min := eta_min s; To := To s; Ti := Ti s; Tmul := Tmul s;
     restarts := restarts s; Tcur := Tcur s; _n_batches := _n_batches s;
     history := history s; last_epoch := e;
     param_groups := param_groups s;
     trainer_n_batches := trainer_n_batches s |}.

Definition set_Tcur (c : Z) (s : t) : t :=
  {| eta_min := eta_min s; To := To s; Ti := Ti s; Tmul := Tmul s;
     restarts := restarts s; Tcur := c; _n_batches := _n_batches s;
     history := history s; last_epoch := last_epoch s;
     param_groups := param_groups s;
     trainer_n_batches := trainer_n_batches s |}.

Definition set_restarts (r : Z) (s : t) : t :=
  {| eta_min := eta_min s; To := To s; Ti := Ti s; Tmul := Tmul s;
     restarts := r; Tcur := Tcur s; _n_batches := _n_batches s;
     history := history s; last_epoch := last_epoch s;
     param_groups := param_groups s;
     trainer_n_batches := trainer_n_batches s |}.

Definition set_Ti (p : Z) (s : t) : t :=
  {| eta_min := eta_min s; To := To s; Ti := p; Tmul := Tmul s;
     restarts := restarts s; Tcur := Tcur s; _n_batches := _n_batches s;
     history := history s; last_epoch := last_epoch s;
     param_groups := param_groups s;
     trainer_n_batches := trainer_n_batches s |}.

Definition set_history (h : list float) (s : t) : t :=
  {| eta_min := eta_min s; To := To s; Ti := Ti s; Tmul := Tmul s;
     restarts := restarts s; Tcur := Tcur s; _n_batches := _n_batches s;
     history := h; last_epoch := last_epoch s;
     param_groups := param_groups s;
     trainer_n_batches := trainer_n_batches s |}.

Definition set_param_groups (g : list param_group) (s : t) : t :=
  {| eta_min := eta_min s; To := To s; Ti := Ti s; Tmul := Tmul s;
     restarts := restarts s; Tcur := Tcur s; _n_batches := _n_batches s;
     history := history s; last_epoch := last_epoch s;
     param_groups := g;
     trainer_n_batches := trainer_n_batches s |}.

Definition set_trainer_n_batches (n : option Z) (s : t) : t :=
  {| eta_min := eta_min s; To := To s; Ti := Ti s; Tmul := Tmul s;
     restarts := restarts s; Tcur := Tcur s; _n_batches := _n_batches s;
     history := history s; last_epoch := last_epoch s;
     param_groups := param_groups s;
     trainer_n_batches := n |}.

(** [__init__].  [base_lrs] are the learning rates of the optimizer's
    parameter groups; the base class [_LRScheduler] of torch records each
    as the group's [initial_lr] and stores [last_epoch]. *)
Definition __init__ (base_lrs : list float) (last_epoch : Z)
    (eta_min : float) (To Tmul : Z) (n_batches : option Z) : Outcome t :=
  if negb (0 <? eta_min)%float then Raise AssertionError
  else if negb (0 <? To) then Raise AssertionError
  else if negb (0 <? Tmul) then Raise AssertionError
  else Ok {| eta_min := eta_min; To := To; Ti := To; Tmul := Tmul;
             restarts := 0; Tcur := 0; _n_batches := n_batches;
             history := []; last_epoch := last_epoch;
             param_groups :=
               map (fun l => {| initial_lr := l; lr := l |}) base_lrs;
             trainer_n_batches := None |}.

(** The [n_batches] property. *)
Definition n_batches : M t Z :=
  s <- get ;;
  match _n_batches s with
  | Some n => ret n
  | None =>
      match trainer_n_batches s with
      | Some n => ret n
      | None => raise AttributeError
      end
  end.

Section Libm.
Variable cos : float -> float.

(** The cosine curve of the [return] of [get_lr]. *)
Definition annealed (eta_min lr x : float) (Ti : Z) : float :=
  (eta_min
   + (lr - eta_min) * (1 + cos (x * math.pi / float_of_int Ti)) / 2)%float.

Definition get_lr (lr : float) (cepoch cbatch : Z) : M t float :=
  s <- get ;;
  (if last_epoch s =? -1 then
     modify (set_last_epoch cepoch)
   else if last_epoch s <? cepoch then
     modify (set_last_epoch cepoch) ;;
     modify (fun s => set_Tcur (Tcur s + 1) s)
   else ret tt) ;;
  s <- get ;;
  (if Tcur s =? Ti s then
     modify (set_Tcur 0) ;;
     modify (fun s => set_restarts (restarts s + 1) s) ;;
     modify (fun s => set_Ti (To s * Tmul s ^ restarts s) s)
   else ret tt) ;;
  s <- get ;;
  nb <- n_batches ;;
  step <- lift (int_truediv (Ti s) (Z.max 1 (Ti s * nb - 1))) ;;
  let x := (step * float_of_int (Tcur s * nb + cbatch))%float in
  if Ti s =? 0 then raise ZeroDivisionError
  else ret (annealed (eta_min s) lr x (Ti s)).

(** The loop of [step] over the parameter groups: [done] holds the groups
    already rewritten. *)
Fixpoint step_groups (done todo : list param_group) (epoch batch : Z)
    : M t unit :=
  match todo with
  | [] => ret tt
  | g :: todo' =>
      v <- get_lr (initial_lr g) epoch batch ;;
      let g' := {| initial_lr := initial_lr g; lr := v |} in
      modify (fun s => set_param_groups (done ++ g' :: todo') s) ;;
      step_groups (done ++ [g']) todo' epoch batch
  end.

Definition step (epoch : option Z) (batch : option Z) : M t unit :=
  match batch with
  | None => ret tt
  | Some batch =>
      s <- get ;;
      let epoch := match epoch with
                   | None => last_epoch s + 1
                   | Some e => e
                   end in
      step_groups [] (param_groups s) epoch batch ;;
      modify (set_last_epoch epoch)
  end.

(** [on_train_begin]: [trainer_last_epoch] is [self.trainer.last_epoch]. *)
Definition on_train_begin (trainer_last_epoch : Z) : M t unit :=
  modify (set_last_epoch trainer_last_epoch).

Definition on_batch_begin (cepoch cbatch : Z) : M t unit :=
  s <- get ;;
  match param_groups s with
  | [] => raise IndexError
  | g :: _ => modify (set_history (history s ++ [lr g]))
  end ;;
  step (Some cepoch) (Some cbatch).

(** The trainer's batch loop as seen by the schedule: [on_batch_begin] on
    each (epoch, batch) pair in turn. *)
Definition run (batches : list (Z * Z)) : M t unit :=
  for_each batches (fun eb => on_batch_begin (fst eb) (snd eb)).

(** The schedule as the [fit_loader] of a trainer drives it: the trainer
    assigns its [n_batches], here [nb], and fires [on_train_begin] while its
    [last_epoch] is [e0]; then comes [on_batch_begin] on each pair. *)
Definition run_under_trainer (e0 nb : Z) (batches : list (Z * Z))
    : M t unit :=
  modify (set_trainer_n_batches (Some nb)) ;;
  on_train_begin e0 ;;
  run batches.

(** *** Vocabulary of the statements about the schedule *)

(** The two tests of [get_lr] as one state change. *)
Definition advance (cepoch : Z) (s : t) : t :=
  let s1 := if last_epoch s =? -1 then set_last_epoch cepoch s
            else if last_epoch s <? cepoch
                 then set_Tcur (Tcur s + 1) (set_last_epoch cepoch s)
                 else s in
  if Tcur s1 =? Ti s1
  then set_Ti (To s1 * Tmul s1 ^ (restarts s1 + 1))
         (set_restarts (restarts s1 + 1) (set_Tcur 0 s1))
  else s1.

(** The [x] of [get_lr]. *)
Definition phase (s : t) (nb cbatch : Z) : float :=
  (rounded_quotient (Ti s) (Z.max 1 (Ti s * nb - 1))
   * float_of_int (Tcur s * nb + cbatch))%float.

(** A parameter group after [step]: its rate is the cosine curve at the
    state [s] that [get_lr] left. *)
Definition relr (s : t) (nb cbatch : Z) (g : param_group) : param_group :=
  {| initial_lr := initial_lr g;
     lr := annealed (eta_min s) (initial_lr g) (phase s nb cbatch) (Ti s) |}.

(** The constraints that [__init__] asserts, and what they give for every
    later state. *)
Definition wf (s : t) : Prop :=
  0 < To s /\ 0 < Tmul s /\ 0 <= restarts s /\ 0 < Ti s.

(** The [n_batches] property reads [nb], from the constructor's argument or
    from the trainer. *)
Definition batches_per_epoch (s : t) (nb : Z) : Prop :=
  n_batches s = (Ok nb, s).



(** The (epoch, batch) pairs of epochs 1 to [n] of one batch each. *)
Definition one_batch_epochs (n : nat) : list (Z * Z) :=
  map (fun k => (k, 0)) (range 1 (Z.of_nat n + 1)).




(** The state of a schedule just built after the batches [bs], when nothing
    raised. *)
Definition after (built : Outcome t) (bs : list (Z * Z)) : option t :=
  match built with
  | Ok s => match run bs s with
            | (Ok _, s') => Some s'
            | (Raise _, _) => None
            end
  | Raise _ => None
  end.

(** The same with the schedule driven by a trainer whose [last_epoch] is
    [e0] and whose [n_batches] is [nb]. *)
Definition after_under_trainer (built : Outcome t) (e0 nb : Z)
    (bs : list (Z * Z)) : option t :=
  match built with
  | Ok s => match run_under_trainer e0 nb bs s with
            | (Ok _, s') => Some s'
            | (Raise _, _) => None
            end
  | Raise _ => None
  end.

End Libm.

End SGDRestarts.


(** ** External collaborators

    The model, the criterion, the optimizer and the batches of a data loader
    are outside the harness.  [Params] is a model's [state_dict], [OptState]
    the state of [self.optimizer], [Input] one [(X, Y)] pair of a loader. *)

Class Backend : Type := {
  Params : Type;
  OptState : Type;
  Input : Type;
  (** [X.size(0)] *)
  mb_size : Input -> Z;
  (** [_do_optimize]: zero the gradients, forward, criterion, backward and
      optimizer step; the float is [loss.data.cpu().item()]. *)
  do_optimize : Params -> OptState -> Input -> Outcome (Params * OptState * Q);
  (** [_do_evaluate]: forward and criterion; the criterion may give [None]. *)
  do_evaluate : Params -> Input -> Outcome (option Q);
  (** The optimize step of [lr_find], with its throw-away SGD optimizer at
      learning rate [lr]. *)
  sgd_step : Params -> R -> Input -> Outcome (Params * Q)
}.

(** ** Data model *)

Section DataModel.
Context {B : Backend}.

(** A [DataLoader]: the batches one iteration yields, [len(dataset)] and
    [batch_size]. *)
Record Loader : Type := {
  batches : list Input;
  dataset_len : Z;
  batch_size : Z
}.

(** [self.metrics]: the two phases of the [losses] history. *)
Record Metrics : Type := {
  train_losses : list Q;
  valid_losses : list (option Q)
}.

(** [metrics['train']['losses'].append(v)] *)
Definition append_train (v : Q) (m : Metrics) : Metrics :=
  {| train_losses := train_losses m ++ [v];
     valid_losses := valid_losses m |}.

(** [metrics['valid']['losses'].append(v)] *)
Definition append_valid (v : option Q) (m : Metrics) : Metrics :=
  {| train_losses := train_losses m;
     valid_losses := valid_losses m ++ [v] |}.

(** A file written by [save_trainer_state]. *)
Inductive File : Type :=
| ModelFile (p : Params)
| HistoFile (m : Metrics).

(** [self.scheduler]: an object of torch, known by its class name and its
    [last_epoch] attribute. *)
Record Scheduler : Type := {
  class_name : string;
  sched_last_epoch : Z
}.

(** The hooks of the callback protocol, with the arguments the trainer
    passes. *)
Inductive HookCall : Type :=
| OnTrainBegin (n_epochs : Z)
| OnTrainEnd (n_epochs : Z)
| OnEpochBegin (epoch : Z)
| OnEpochEnd (epoch : Z)
| OnBatchBegin (epoch batch size : Z)
| OnBatchEnd (epoch batch : Z) (loss : Q)
| OnVBatchBegin (epoch batch size : Z)
| OnVBatchEnd (epoch batch : Z) (loss : option Q).

(** The attributes of a [ModelCheckpoint]; the three [best_*] attributes
    are absent until [on_train_begin].  The constructor takes the
    directory name of [model_basename], so that a constructed checkpointer
    has a basename that is not [None]. *)
Record CheckpointState : Type := {
  basename : string;
  reset : bool;
  load_best : bool;
  best_model : option Params;
  best_epoch : option Z;
  best_loss : option Q
}.

(** The registered callbacks.  [Plain] is the base class, whose hooks all
    pass; [Observer f] stands for a subclass that reads but does not
    change the trainer (console and plot reporters, user callbacks): hook
    [h] returns or raises as [f h] says. *)
Inductive Callback : Type :=
| Plain
| Checkpoint (c : CheckpointState)
| Observer (f : HookCall -> Outcome unit).

(** What the trainer did to the outside, in order: hook [h] invoked on the
    callback registered at position [cb], the scheduler stepped with or
    without a metric, a checkpoint written or read. *)
Inductive Event : Type :=
| EvHook (cb : nat) (h : HookCall)
| EvSchedulerStep (metric : option Q)
| EvSave (file_basename : string)
| EvLoad (file_basename : string).

(** The trainer object [self], the storage it reaches, and the log of its
    calls. *)
Record World : Type := {
  model : Params;
  (** the mode set by [model.train()] and [model.eval()] *)
  training : bool;
  optimizer : OptState;
  (** [hasattr(criterion, 'size_average') and criterion.size_average] *)
  size_average : bool;
  scheduler : option Scheduler;
  metrics : Metrics;
  last_epoch : Z;
  callbacks : list Callback;
  has_validation : option bool;
  n_batches : option Z;
  train_loss : option Q;
  valid_loss : option (option Q);
  files : gmap string File;
  trace : list Event
}.

Definition set_model (v : Params) (w : World) : World :=
  {| model := v; training := training w; optimizer := optimizer w;
     size_average := size_average w; scheduler := scheduler w;
     metrics := metrics w; last_epoch := last_epoch w;
     callbacks := callbacks w; has_validation := has_validation w;
     n_batches := n_batches w; train_loss := train_loss w;
     valid_loss := valid_loss w; files := files w; trace := trace w |}.

Definition set_training (v : bool) (w : World) : World :=
  {| model := model w; training := v; optimizer := optimizer w;
     size_average := size_average w; scheduler := scheduler w;
     metrics := metrics w; last_epoch := last_epoch w;
     callbacks := callbacks w; has_validation := has_validation w;
     n_batches := n_batches w; train_loss := train_loss w;
     valid_loss := valid_loss w; files := files w; trace := trace w |}.

Definition set_optimizer (v : OptState) (w : World) : World :=
  {| model := model w; training := training w; optimizer := v;
     size_average := size_average w; scheduler := scheduler w;
     metrics := metrics w; last_epoch := last_epoch w;
     callbacks := callbacks w; has_validation := has_validation w;
     n_batches := n_batches w; train_loss := train_loss w;
     valid_loss := valid_loss w; files := files w; trace := trace w |}.

Definition set_scheduler (v : option Scheduler) (w : World) : World :=
  {| model := model w; training := training w; optimizer := optimizer w;
     size_average := size_average w; scheduler := v; metrics := metrics w;
     last_epoch := last_epoch w; callbacks := callbacks w;
     has_validation := has_validation w; n_batches := n_batches w;
     train_loss := train_loss w; valid_loss := valid_loss w;
     files := files w; trace := trace w |}.

Definition set_metrics (v : Metrics) (w : World) : World :=
  {| model := model w; training := training w; optimizer := optimizer w;
     size_average := size_average w; scheduler := scheduler w;
     metrics := v; last_epoch := last_epoch w; callbacks := callbacks w;
     has_validation := has_validation w; n_batches := n_batches w;
     train_loss := train_loss w; valid_loss := valid_loss w;
     files := files w; trace := trace w |}.

Definition set_last_epoch (v : Z) (w : World) : World :=
  {| model := model w; training := training w; optimizer := optimizer w;
     size_average := size_average w; scheduler := scheduler w;
     metrics := metrics w; last_epoch := v; callbacks := callbacks w;
     has_validation := has_validation w; n_batches := n_batches w;
     train_loss := train_loss w; valid_loss := valid_loss w;
     files := files w; trace := trace w |}.

Definition set_callbacks (v : list Callback) (w : World) : World :=
  {| model := model w; training := training w; optimizer := optimizer w;
     size_average := size_average w; scheduler := scheduler w;
     metrics := metrics w; last_epoch := last_epoch w; callbacks := v;
     has_validation := has_validation w; n_batches := n_batches w;
     train_loss := train_loss w; valid_loss := valid_loss w;
     files := files w; trace := trace w |}.

Definition set_has_validation (v : option bool) (w : World) : World :=
  {| model := model w; training := training w; optimizer := optimizer w;
     size_average := size_average w; scheduler := scheduler w;
     metrics := metrics w; last_epoch := last_epoch w;
     callbacks := callbacks w; has_validation := v;
     n_batches := n_batches w; train_loss := train_loss w;
     valid_loss := valid_loss w; files := files w; trace := trace w |}.

Definition set_n_batches (v : option Z) (w : World) : World :=
  {| model := model w; training := training w; optimizer := optimizer w;
     size_average := size_average w; scheduler := scheduler w;
     metrics := metrics w; last_epoch := last_epoch w;
     callbacks := callbacks w; has_validation := has_validation w;
     n_batches := v; train_loss := train_loss w;
     valid_loss := valid_loss w; files := files w; trace := trace w |}.

Definition set_train_loss (v : option Q) (w : World) : World :=
  {| model := model w; training := training w; optimizer := optimizer w;
     size_average := size_average w; scheduler := scheduler w;
     metrics := metrics w; last_epoch := last_epoch w;
     callbacks := callbacks w; has_validation := has_validation w;
     n_batches := n_batches w; train_loss := v; valid_loss := valid_loss w;
     files := files w; trace := trace w |}.

Definition set_valid_loss (v : option (option Q)) (w : World) : World :=
  {| model := model w; training := training w; optimizer := optimizer w;
     size_average := size_average w; scheduler := scheduler w;
     metrics := metrics w; last_epoch := last_epoch w;
     callbacks := callbacks w; has_validation := has_validation w;
     n_batches := n_batches w; train_loss := train_loss w; valid_loss := v;
     files := files w; trace := trace w |}.

Definition set_files (v : gmap string File) (w : World) : World :=
  {| model := model w; training := training w; optimizer := optimizer w;
     size_average := size_average w; scheduler := scheduler w;
     metrics := metrics w; last_epoch := last_epoch w;
     callbacks := callbacks w; has_validation := has_validation w;
     n_batches := n_batches w; train_loss := train_loss w;
     valid_loss := valid_loss w; files := v; trace := trace w |}.

Definition set_trace (v : list Event) (w : World) : World :=
  {| model := model w; training := training w; optimizer := optimizer w;
     size_average := size_average w; scheduler := scheduler w;
     metrics := metrics w; last_epoch := last_epoch w;
     callbacks := callbacks w; has_validation := has_validation w;
     n_batches := n_batches w; train_loss := train_loss w;
     valid_loss := valid_loss w; files := files w; trace := v |}.

Definition log (e : Event) : M World unit :=
  modify (fun w => set_trace (trace w ++ [e]) w).

(** [__init__]: a trainer with an empty history and no file written. *)
Definition __init__ (m : Params) (sa : bool) (o : OptState)
    (lr_scheduler : option Scheduler) (cbs : list Callback) : World :=
  {| model := m; training := true; optimizer := o; size_average := sa;
     scheduler := lr_scheduler;
     metrics := {| train_losses := []; valid_losses := [] |};
     last_epoch := 0; callbacks := cbs; has_validation := None;
     n_batches := None; train_loss := None; valid_loss := None;
     files := ∅; trace := [] |}.

(** [save_trainer_state(file_basename, model, metrics)] *)
Definition save_trainer_state (file_basename : string) (p : Params)
    (m : Metrics) : M World unit :=
  modify (fun w =>
    set_files (<[file_basename +:+ ".model" := ModelFile p]> (files w)) w) ;;
  modify (fun w =>
    set_files (<[file_basename +:+ ".histo" := HistoFile m]> (files w)) w) ;;
  log (EvSave file_basename).

(** [load_trainer_state(file_basename, model, metrics)], always called on
    the trainer's own model and history.  A stored history carries both
    phases, so that [metrics.update] replaces both. *)
Definition load_trainer_state (file_basename : string) : M World unit :=
  w <- get ;;
  match files w !! (file_basename +:+ ".model") with
  | Some (ModelFile p) => modify (set_model p)
  | Some (HistoFile _) => raise (RuntimeError "not a state_dict")
  | None => raise FileNotFoundError
  end ;;
  w <- get ;;
  match files w !! (file_basename +:+ ".histo") with
  | Some (HistoFile m) => modify (set_metrics m)
  | Some (ModelFile _) => raise (RuntimeError "not a history")
  | None => ret tt
  end ;;
  log (EvLoad file_basename).

End DataModel.

(** ** [class ModelCheckpoint(Callback)]

    A hook runs on the checkpointer registered at position [self] of the
    trainer's callback list and reaches the trainer through its
    back-reference, which is the world itself. *)

Module ModelCheckpoint.
Section Hooks.
Context {B : Backend}.

Definition on_self (f : CheckpointState -> CheckpointState)
    (cb : Callback) : Callback :=
  match cb with
  | Checkpoint c => Checkpoint (f c)
  | _ => cb
  end.

(** Read the attributes of [self]. *)
Definition self_get (self : nat) : M World CheckpointState :=
  w <- get ;;
  match callbacks w !! self with
  | Some (Checkpoint c) => ret c
  | _ => raise (RuntimeError "not a ModelCheckpoint")
  end.

(** Assign attributes of [self]. *)
Definition self_set (self : nat) (f : CheckpointState -> CheckpointState)
    : M World unit :=
  modify (fun w => set_callbacks (alter (on_self f) self (callbacks w)) w).

Definition set_best_model (p : Params) (c : CheckpointState)
    : CheckpointState :=
  {| basename := basename c; reset := reset c; load_best := load_best c;
     best_model := Some p; best_epoch := best_epoch c;
     best_loss := best_loss c |}.

Definition set_best_epoch (e : Z) (c : CheckpointState) : CheckpointState :=
  {| basename := basename c; reset := reset c; load_best := load_best c;
     best_model := best_model c; best_epoch := Some e;
     best_loss := best_loss c |}.

Definition set_best_loss (l : Q) (c : CheckpointState) : CheckpointState :=
  {| basename := basename c; reset := reset c; load_best := load_best c;
     best_model := best_model c; best_epoch := best_epoch c;
     best_loss := Some l |}.

(** [__init__(model_basename, reset, verbose, load_best)] *)
Definition __init__ (model_basename : string) (reset load_best : bool)
    : Callback :=
  Checkpoint {| basename := model_basename; reset := reset;
                load_best := load_best; best_model := None;
                best_epoch := None; best_loss := None |}.

(** [os.path.isfile(path)] *)
Definition isfile (path : string) : M World bool :=
  w <- get ;;
  ret (match files w !! path with Some _ => true | None => false end).

(** [metrics['valid']['losses'][-1] or metrics['train']['losses'][-1]] *)
Definition monitored_loss (m : Metrics) : Outcome Q :=
  match py_last (valid_losses m) with
  | Raise e => Raise e
  | Ok v =>
      match v with
      | Some q => if Qis_zero q then py_last (train_losses m) else Ok q
      | None => py_last (train_losses m)
      end
  end.

Definition on_train_begin (self : nat) (n_epochs : Z) : M World unit :=
  c <- self_get self ;;
  stored <- isfile (basename c +:+ ".model") ;;
  (if negb (reset c) && stored
   then load_trainer_state (basename c)
   else ret tt) ;;
  modify (fun w => set_last_epoch (len (train_losses (metrics w))) w) ;;
  modify (fun w =>
    match scheduler w with
    | Some sch =>
        set_scheduler (Some {| class_name := class_name sch;
                               sched_last_epoch := last_epoch w |}) w
    | None => w
    end) ;;
  w <- get ;;
  self_set self (set_best_model (model w)) ;;
  self_set self (set_best_epoch (last_epoch w)) ;;
  self_set self (set_best_loss 10000000000) ;;
  if 0 <? last_epoch w then
    l <- lift (monitored_loss (metrics w)) ;;
    self_set self (set_best_loss l)
  else ret tt.

Definition on_train_end (self : nat) (n_epochs : Z) : M World unit :=
  c <- self_get self ;;
  if load_best c then load_trainer_state (basename c) else ret tt.

(** The body of [if eloss < self.best_loss] in [on_epoch_end]. *)
Definition keep_best (self : nat) (epoch : Z) (eloss : Q) : M World unit :=
  w <- get ;;
  c <- self_get self ;;
  self_set self (set_best_loss eloss) ;;
  self_set self (set_best_epoch epoch) ;;
  self_set self (set_best_model (model w)) ;;
  save_trainer_state (basename c) (model w) (metrics w).

Definition on_epoch_end (self : nat) (epoch : Z) : M World unit :=
  w <- get ;;
  eloss <- lift (monitored_loss (metrics w)) ;;
  c <- self_get self ;;
  match best_loss c with
  | None => raise AttributeError
  | Some best =>
      if Qltb eloss best then keep_best self epoch eloss else ret tt
  end.

End Hooks.
End ModelCheckpoint.

(** ** [class DeepNetTrainer] *)

Module DeepNetTrainer.
Section Methods.
Context {B : Backend}.

(** [cb.h(...)] on the callback registered at position [i]. *)
Definition call (i : nat) (h : HookCall) : M World unit :=
  log (EvHook i h) ;;
  w <- get ;;
  match callbacks w !! i with
  | Some (Checkpoint _) =>
      match h with
      | OnTrainBegin n => ModelCheckpoint.on_train_begin i n
      | OnTrainEnd n => ModelCheckpoint.on_train_end i n
      | OnEpochEnd e => ModelCheckpoint.on_epoch_end i e
      | _ => ret tt
      end
  | Some (Observer f) => lift (f h)
  | Some Plain => ret tt
  | None => ret tt
  end.

(** [for cb in self.callbacks: cb.h(...)] *)
Definition fire (h : HookCall) : M World unit :=
  w <- get ;;
  for_each (seq 0 (length (callbacks w))) (fun i => call i h).

(** Read an attribute that may be absent. *)
Definition attr {A} (f : World -> option A) : M World A :=
  w <- get ;;
  match f w with
  | Some a => ret a
  | None => raise AttributeError
  end.

(** The locals [epo_samples], [epo_batches], [epo_loss] of an epoch. *)
Record Accum (L : Type) : Type := {
  epo_samples : Z;
  epo_batches : Z;
  epo_loss : L
}.
Arguments epo_samples {L} _.
Arguments epo_batches {L} _.
Arguments epo_loss {L} _.

(** [for x in l: acc = body acc x] *)
Fixpoint fold_each {A C} (l : list A) (acc : C)
    (body : C -> A -> M World C) : M World C :=
  match l with
  | [] => ret acc
  | x :: l' => acc' <- body acc x ;; fold_each l' acc' body
  end.

(** One turn of the training minibatch loop. *)
Definition train_batch (curr_epoch : Z) (acc : Accum Q)
    (ib : Z * Input) : M World (Accum Q) :=
  let '(curr_batch, xy) := ib in
  let size := mb_size xy in
  let samples := epo_samples acc + size in
  let nbatches := epo_batches acc + 1 in
  fire (OnBatchBegin curr_epoch curr_batch size) ;;
  w <- get ;;
  r <- lift (do_optimize (model w) (optimizer w) xy) ;;
  let '(p, o, vloss) := r in
  modify (set_model p) ;;
  modify (set_optimizer o) ;;
  w <- get ;;
  let loss := (if size_average w
               then epo_loss acc + inject_Z size * vloss
               else epo_loss acc + vloss)%Q in
  fire (OnBatchEnd curr_epoch curr_batch vloss) ;;
  ret {| epo_samples := samples; epo_batches := nbatches;
         epo_loss := loss |}.

(** One turn of the validation minibatch loop; [epo_loss] is [None] once a
    batch had no loss, and adding to [None] is a [TypeError]. *)
Definition valid_batch (curr_epoch : Z) (acc : Accum (option Q))
    (ib : Z * Input) : M World (Accum (option Q)) :=
  let '(curr_batch, xy) := ib in
  let size := mb_size xy in
  let samples := epo_samples acc + size in
  let nbatches := epo_batches acc + 1 in
  fire (OnVBatchBegin curr_epoch curr_batch size) ;;
  w <- get ;;
  loss <- lift (do_evaluate (model w) xy) ;;
  total <- match loss with
           | None => ret None
           | Some vloss =>
               match epo_loss acc with
               | None => raise TypeError
               | Some l =>
                   ret (Some (if size_average w
                              then l + vloss * inject_Z size
                              else l + vloss)%Q)
               end
           end ;;
  fire (OnVBatchEnd curr_epoch curr_batch loss) ;;
  ret {| epo_samples := samples; epo_batches := nbatches;
         epo_loss := total |}.

(** [float(epo_loss / epo_samples)] *)
Definition mean_loss (loss : Q) (samples : Z) : Outcome Q :=
  if samples =? 0 then Raise ZeroDivisionError
  else Ok (loss / inject_Z samples)%Q.

(** The scheduler step that ends an epoch. *)
Definition scheduler_step : M World unit :=
  w <- get ;;
  match scheduler w with
  | None => ret tt
  | Some sch =>
      if String.eqb (class_name sch) "ReduceLROnPlateau" then
        v <- attr valid_loss ;;
        match v with
        | Some l => log (EvSchedulerStep (Some l))
        | None => log (EvSchedulerStep None)
        end
      else log (EvSchedulerStep None)
  end.

(** The training phase of an epoch, up to the new entry of the training
    history. *)
Definition training_phase (train_data : Loader) (curr_epoch : Z)
    : M World unit :=
  modify (set_training true) ;;
  fire (OnEpochBegin curr_epoch) ;;
  acc <- fold_each (enumerate (batches train_data))
           {| epo_samples := 0; epo_batches := 0; epo_loss := 0%Q |}
           (train_batch curr_epoch) ;;
  l <- lift (mean_loss (epo_loss acc) (epo_samples acc)) ;;
  modify (set_train_loss (Some l)) ;;
  modify (fun w => set_metrics (append_train l (metrics w)) w).

(** The validation phase of an epoch, or the [None] placeholder. *)
Definition validation_phase (valid_data : option Loader) (curr_epoch : Z)
    : M World unit :=
  hv <- attr has_validation ;;
  if hv : bool then
    modify (set_training false) ;;
    vacc <- fold_each
              (enumerate (match valid_data with
                          | Some d => batches d
                          | None => []
                          end))
              {| epo_samples := 0; epo_batches := 0; epo_loss := Some 0%Q |}
              (valid_batch curr_epoch) ;;
    v <- match epo_loss vacc with
         | None => ret None
         | Some total =>
             q <- lift (mean_loss total (epo_samples vacc)) ;;
             ret (Some q)
         end ;;
    modify (set_valid_loss (Some v)) ;;
    modify (fun w => set_metrics (append_valid v (metrics w)) w)
  else
    modify (fun w => set_metrics (append_valid None (metrics w)) w).

(** The body of [for curr_epoch in range(...)]. *)
Definition epoch (train_data : Loader) (valid_data : option Loader)
    (curr_epoch : Z) : M World unit :=
  training_phase train_data curr_epoch ;;
  validation_phase valid_data curr_epoch ;;
  fire (OnEpochEnd curr_epoch) ;;
  scheduler_step.

(** [int(np.ceil(len(train_data.dataset) / train_data.batch_size))] *)
Definition count_batches (d : Loader) : Outcome Z :=
  if batch_size d =? 0 then Raise ZeroDivisionError
  else Ok (- ((- dataset_len d) / batch_size d)).

(** The [try] block of [fit_loader]. *)
Definition fit_body (n_epochs : Z) (train_data : Loader)
    (valid_data : option Loader) : M World unit :=
  fire (OnTrainBegin n_epochs) ;;
  w <- get ;;
  for_each (range (last_epoch w + 1) (last_epoch w + n_epochs + 1))
    (epoch train_data valid_data).

(** The two assignments of [fit_loader] that precede its [try]. *)
Definition fit_setup (train_data : Loader) (valid_data : option Loader)
    : M World unit :=
  modify (set_has_validation
            (Some (match valid_data with
                   | Some _ => true
                   | None => false
                   end))) ;;
  nb <- lift (count_batches train_data) ;;
  modify (set_n_batches (Some nb)).

Definition fit_loader (n_epochs : Z) (train_data : Loader)
    (valid_data : option Loader) : M World unit :=
  fit_setup train_data valid_data ;;
  except_KeyboardInterrupt (fit_body n_epochs train_data valid_data) ;;
  fire (OnTrainEnd n_epochs).

(** [load_state(file_basename)] *)
Definition load_state (file_basename : string) : M World unit :=
  load_trainer_state file_basename ;;
  modify (fun w => set_last_epoch (len (train_losses (metrics w))) w).

(** [save_state(file_basename)] *)
Definition save_state (file_basename : string) : M World unit :=
  w <- get ;;
  save_trainer_state file_basename (model w) (metrics w).

(** The schedule of [lr_find]: [lr_mult], [lambda_schd] and the rate that
    [LambdaLR] of torch installs at its [k]-th step, the base rate times
    [lambda_schd k]. *)
Definition lr_mult (linear : bool) (ratio : Q) (num_it : Z) : R :=
  if linear then (Q2R ratio / IZR num_it)%R
  else Rpower (Q2R ratio) (1 / IZR num_it).

Definition lambda_schd (linear : bool) (mult : R) (it : Z) : R :=
  if linear then (mult * IZR it)%R else powerRZ mult it.

Definition sweep_lr (linear : bool) (min_lr : Q) (mult : R) (i : Z) : R :=
  (Q2R min_lr * lambda_schd linear mult (i + 1))%R.

(** The locals [lrs], [losses], [best] of [lr_find]. *)
Record Sweep : Type := {
  lrs : list R;
  losses : list Q;
  best : Q
}.

(** The [for i, (X, Y) in enumerate(dataloader)] loop of [lr_find]. *)
Fixpoint sweep (lr_at : Z -> R) (num_it : Z) (todo : list (Z * Input))
    (st : Sweep) : M World Sweep :=
  match todo with
  | [] => ret st
  | (i, xy) :: todo' =>
      let lr := lr_at i in
      w <- get ;;
      r <- lift (sgd_step (model w) lr xy) ;;
      let '(p, iloss) := r in
      modify (set_model p) ;;
      let st' := {| lrs := lrs st ++ [lr]; losses := losses st ++ [iloss];
                    best := best st |} in
      if Qltb iloss (best st) then
        sweep lr_at num_it todo'
          {| lrs := lrs st'; losses := losses st'; best := iloss |}
      else if Qltb (best st * 10000) iloss || (i =? num_it - 1) then
        ret st'
      else sweep lr_at num_it todo' st'
  end.

Definition lr_find (dataloader : Loader) (min_lr max_lr : Q)
    (linear : bool) (num_it : option Z) : M World (list R * list Q) :=
  let num_it := match num_it with
                | Some n => if n =? 0 then len (batches dataloader) else n
                | None => len (batches dataloader)
                end in
  if Qis_zero min_lr then raise ZeroDivisionError else
  let ratio := (max_lr / min_lr)%Q in
  if num_it =? 0 then raise ZeroDivisionError else
  let mult := lr_mult linear ratio num_it in
  save_state "tmp" ;;
  modify (set_training true) ;;
  st <- finally
          (sweep (sweep_lr linear min_lr mult) num_it
             (enumerate (batches dataloader))
             {| lrs := []; losses := []; best := 1000000000 |})
          (load_state "tmp") ;;
  ret (lrs st, losses st).

End Methods.
End DeepNetTrainer.

(** ** Reading the log *)

(** The hooks invoked, with the position of the callback. *)
Definition hook_calls (tr : list Event) : list (nat * HookCall) :=
  flat_map (fun ev => match ev with
                      | EvHook i h => [(i, h)]
                      | _ => []
                      end) tr.

(** The epochs passed to [on_epoch_begin] of the callback at position [i].
    Every other hook of an epoch receives the same [curr_epoch]. *)
Definition epochs_seen (i : nat) (tr : list Event) : list Z :=
  flat_map (fun ev => match ev with
                      | EvHook j (OnEpochBegin e) =>
                          if (j =? i)%nat then [e] else []
                      | _ => []
                      end) tr.

(** The arguments of the scheduler steps. *)
Definition scheduler_steps (tr : list Event) : list (option Q) :=
  flat_map (fun ev => match ev with
                      | EvSchedulerStep v => [v]
                      | _ => []
                      end) tr.

(** The epochs during whose [on_epoch_end] a checkpoint was written: [cur]
    is the epoch of the [on_epoch_end] call in progress, if any. *)
Fixpoint saving_epochs (cur : option Z) (tr : list Event) : list Z :=
  match tr with
  | [] => []
  | EvHook _ (OnEpochEnd e) :: tr' => saving_epochs (Some e) tr'
  | EvHook _ _ :: tr' => saving_epochs None tr'
  | EvSave _ :: tr' =>
      match cur with
      | Some e => e :: saving_epochs cur tr'
      | None => saving_epochs cur tr'
      end
  | _ :: tr' => saving_epochs cur tr'
  end.

(** The positions of the callbacks on which [on_train_end] was invoked. *)
Definition train_end_calls (tr : list Event) : list nat :=
  flat_map (fun ev => match ev with
                      | EvHook i (OnTrainEnd _) => [i]
                      | _ => []
                      end) tr.

(** A callback whose [on_train_end] returns without reloading a checkpoint:
    the base class, a checkpointer built with [load_best=False], an observer
    that does not raise there. *)
Definition quiet_end `{B : Backend} (n_epochs : Z) (cb : Callback) : Prop :=
  match cb with
  | Plain => True
  | Checkpoint c => load_best c = false
  | Observer f => f (OnTrainEnd n_epochs) = Ok tt
  end.

(** ** Vocabulary of the statements about [fit_loader] *)

Section Vocabulary.
Context {B : Backend}.

(** A callback that never reloads a stored checkpoint: any callback but a
    checkpointer, and a checkpointer built with [reset=True] and
    [load_best=False]. *)
Definition keeps_history (cb : Callback) : Prop :=
  match cb with
  | Checkpoint c => reset c = true /\ load_best c = false
  | _ => True
  end.

Definition is_checkpoint (cb : Callback) : bool :=
  match cb with Checkpoint _ => true | _ => false end.

Definition checkpoint_at (l : list Callback) (i : nat) : bool :=
  match l !! i with
  | Some cb => is_checkpoint cb
  | None => false
  end.

(** A callback without the attributes that its hooks assign. *)
Definition shape (cb : Callback) : Callback :=
  match cb with
  | Checkpoint c =>
      Checkpoint {| basename := basename c; reset := reset c;
                    load_best := load_best c; best_model := None;
                    best_epoch := None; best_loss := None |}
  | _ => cb
  end.

(** The hooks that neither start a run nor start an epoch. *)
Definition quiet_hook (h : HookCall) : Prop :=
  match h with
  | OnTrainBegin _ | OnEpochBegin _ => False
  | _ => True
  end.

(** From [w] to [w']: the same callbacks up to their own attributes, the
    same [last_epoch], [k] more entries in the training history, and for
    the callback at position [j] the further epochs [es j]. *)
Record Step (w w' : World) (k : nat) (es : nat -> list Z) : Prop := {
  step_shape : shape <$> callbacks w' = shape <$> callbacks w;
  step_last_epoch : last_epoch w' = last_epoch w;
  step_history :
    length (train_losses (metrics w'))
    = (length (train_losses (metrics w)) + k)%nat;
  step_epochs :
    forall j, epochs_seen j (trace w') = epochs_seen j (trace w) ++ es j
}.

Definition Steady (w w' : World) : Prop := Step w w' 0 (fun _ => []).

(** From [w] to [w'] over an [on_train_begin] round: [last_epoch] is the
    length of the history when [b] holds and is unchanged otherwise. *)
Record Begin (w w' : World) (b : bool) : Prop := {
  begin_shape : shape <$> callbacks w' = shape <$> callbacks w;
  begin_history :
    length (train_losses (metrics w')) = length (train_losses (metrics w));
  begin_epochs : forall j, epochs_seen j (trace w') = epochs_seen j (trace w);
  begin_last_epoch :
    last_epoch w' = if b then len (train_losses (metrics w)) else last_epoch w
}.

(** [Q] holds of every normal return of [c] from [w]. *)
Definition okpost {A} (c : M World A) (w : World) (Q : A -> World -> Prop)
    : Prop :=
  forall a w', c w = (Ok a, w') -> Q a w'.

(** A computation that, where no callback reloads a checkpoint, returns in a
    world that is [Steady] with the one it started from. *)
Definition steady {A} (c : M World A) : Prop :=
  forall w, Forall keeps_history (callbacks w) ->
            okpost c w (fun _ w' => Steady w w').

(** [fit_loader] runs from [w] to [w'] with no exception at all: the [try]
    block ends normally, not by an interrupt, and so does the
    [on_train_end] round. *)
Definition completes (n_epochs : Z) (train_data : Loader)
    (valid_data : option Loader) (w w' : World) : Prop :=
  exists w0 wb,
    DeepNetTrainer.fit_setup train_data valid_data w = (Ok tt, w0) /\
    DeepNetTrainer.fit_body n_epochs train_data valid_data w0 = (Ok tt, wb) /\
    DeepNetTrainer.fire (OnTrainEnd n_epochs) wb = (Ok tt, w').

End Vocabulary.

(** ** A scripted backend

    A concrete collaborator on which the embedding runs: the model state is
    the number of optimize steps taken so far, and a batch is a sample count
    with a script that tells, from that number, the loss the criterion
    reports or the exception the step raises. *)

Module Bench.

Definition scripted : Backend :=
  {| Params := nat;
     OptState := unit;
     Input := Z * (nat -> Outcome (option Q));
     mb_size := fst;
     do_optimize p o x :=
       match snd x p with
       | Ok (Some l) => Ok (S p, o, l)
       | Ok None => Raise AttributeError
       | Raise e => Raise e
       end;
     do_evaluate p x := snd x p;
     sgd_step p lr x :=
       match snd x p with
       | Ok (Some l) => Ok (S p, l)
       | Ok None => Raise AttributeError
       | Raise e => Raise e
       end |}.

(** A batch of one sample whose [k]-th use reports the [k]-th loss of [l]. *)
Definition script (l : list Q) : @Input scripted :=
  (1, fun p => match nth_error l p with
               | Some q => Ok (Some q)
               | None => Raise (RuntimeError "end of script")
               end).

(** A batch of one sample that raises [e] on every use from the [k]-th on and
    reports loss 1 before. *)
Definition failing (k : nat) (e : Exn) : @Input scripted :=
  (1, fun p => if (p <? k)%nat then Ok (Some 1%Q) else Raise e).

(** A loader of [n] batches [b], with batch size one. *)
Definition loader (b : @Input scripted) (n : nat) : @Loader scripted :=
  {| batches := repeat b n; dataset_len := Z.of_nat n; batch_size := 1 |}.

(** A fresh trainer on the scripted backend. *)
Definition trainer (lr_scheduler : option Scheduler)
    (cbs : list (@Callback scripted)) : @World scripted :=
  __init__ (B := scripted) 0%nat false tt lr_scheduler cbs.

(** The attributes of a checkpointer that has seen [best] as its best loss,
    and a trainer that carries it with history [m]. *)
Definition tracked (best : Q) : @CheckpointState scripted :=
  {| basename := "ck/best"; reset := false; load_best := false;
     best_model := Some (0%nat : @Params scripted); best_epoch := Some 0;
     best_loss := Some best |}.

Definition watching (best : Q) (m : Metrics) : @World scripted :=
  set_metrics m (trainer None [Checkpoint (tracked best)]).

(** A cosine for the closed examples of the schedule, which takes its
    cosines between 0 and [math.pi]: the Taylor polynomial of degree 20
    about 0 up to a quarter turn, and its reflection about the half turn
    from there to three quarters.  It is 1 at 0 and -1 at [math.pi], as
    [math.cos] is on every platform, and within rounding in between. *)
Definition cos_taylor (y : float) : float :=
  let z := (y * y)%float in
  fold_right (fun d acc => (1 / d - z * acc)%float) 0%float
    [1; 2; 24; 720; 40320; 3628800; 479001600; 87178291200;
     20922789888000; 6402373705728000; 2432902008176640000]%float.

Definition cos (a : float) : float :=
  let b := abs a in
  let quarter := (math.pi / 2)%float in
  if (b <=? quarter)%float then cos_taylor b
  else if (b <=? math.pi + quarter)%float
       then (- cos_taylor (b - math.pi))%float
       else nan.

End Bench.

(** * Properties *)

(** ** The monad, lists and numbers *)

Section MonadFacts.
Context {S : Type}.

Lemma bind_ok {A C} (c : M S A) (k : A -> M S C) s a s' :
  c s = (Ok a, s') -> bind c k s = k a s'.
Proof. unfold bind. now intros ->. Qed.

Lemma bind_raise {A C} (c : M S A) (k : A -> M S C) s e s' :
  c s = (Raise e, s') -> bind c k s = (Raise e, s').
Proof. unfold bind. now intros ->. Qed.

Lemma bind_inv_ok {A C} (c : M S A) (k : A -> M S C) s b s'' :
  bind c k s = (Ok b, s'') ->
  exists a s', c s = (Ok a, s') /\ k a s' = (Ok b, s'').
Proof.
  unfold bind. destruct (c s) as [[a|e] s'] eqn:E; [eauto | discriminate].
Qed.


End MonadFacts.

Lemma Qltb_lt x y : Qltb x y = true <-> (x < y)%Q.
Proof.
  unfold Qltb. destruct (Qlt_le_dec x y) as [H|H]; split; auto;
    try discriminate.
  intros H'. exfalso. apply (Qlt_not_le _ _ H' H).
Qed.

Lemma Qltb_nlt x y : Qltb x y = false <-> ~ (x < y)%Q.
Proof. rewrite <- Qltb_lt. destruct (Qltb x y); split; congruence. Qed.

Lemma Qis_zero_iff q : Qis_zero q = true <-> (q == 0)%Q.
Proof. apply Qeq_bool_iff. Qed.

Lemma append_inj_r (b s1 s2 : string) : b +:+ s1 = b +:+ s2 -> s1 = s2.
Proof. induction b as [|a b IH]; cbn; [auto | intros [= H]; auto]. Qed.

Lemma model_histo_distinct (b : string) : b +:+ ".histo" <> b +:+ ".model".
Proof. intros H%append_inj_r. discriminate. Qed.

Lemma py_last_snoc {A} (l : list A) x : py_last (l ++ [x]) = Ok x.
Proof. unfold py_last. now rewrite last_snoc. Qed.

(** ** The checkpointer *)

Section CheckpointFacts.
Context {B : Backend}.
Import ModelCheckpoint.

Lemma monitored_loss_none tl t vl :
  monitored_loss {| train_losses := tl ++ [t];
                    valid_losses := vl ++ [None] |} = Ok t.
Proof. unfold monitored_loss. cbn. now rewrite !py_last_snoc. Qed.

Lemma monitored_loss_zero tl t vl q :
  (q == 0)%Q ->
  monitored_loss {| train_losses := tl ++ [t];
                    valid_losses := vl ++ [Some q] |} = Ok t.
Proof.
  intros H%Qis_zero_iff. unfold monitored_loss. cbn.
  now rewrite !py_last_snoc, H.
Qed.

Lemma monitored_loss_truthy tl t vl q :
  ~ (q == 0)%Q ->
  monitored_loss {| train_losses := tl ++ [t];
                    valid_losses := vl ++ [Some q] |} = Ok q.
Proof.
  intros H. unfold monitored_loss. cbn. rewrite py_last_snoc.
  destruct (Qis_zero q) eqn:E; [|reflexivity].
  now apply Qis_zero_iff in E.
Qed.

(** [on_epoch_end] compares the monitored loss with [best_loss] and does
    nothing else when it is not smaller. *)
Lemma on_epoch_end_compare self epoch w c b eloss :
  callbacks w !! self = Some (Checkpoint c) ->
  best_loss c = Some b ->
  monitored_loss (metrics w) = Ok eloss ->
  on_epoch_end self epoch w
  = if Qltb eloss b then keep_best self epoch eloss w else (Ok tt, w).
Proof.
  intros Hcb Hb Hm. unfold on_epoch_end, self_get, bind, get, lift, ret.
  rewrite Hm, Hcb, Hb. now destruct (Qltb eloss b).
Qed.

Lemma keep_best_effect self epoch eloss w c :
  callbacks w !! self = Some (Checkpoint c) ->
  exists w', keep_best self epoch eloss w = (Ok tt, w') /\
    callbacks w' !! self
    = Some (Checkpoint {| basename := basename c; reset := reset c;
                          load_best := load_best c;
                          best_model := Some (model w);
                          best_epoch := Some epoch;
                          best_loss := Some eloss |}) /\
    files w' !! (basename c +:+ ".model") = Some (ModelFile (model w)) /\
    files w' !! (basename c +:+ ".histo") = Some (HistoFile (metrics w)) /\
    trace w' = trace w ++ [EvSave (basename c)].
Proof.
  intros Hcb. eexists. split.
  - unfold keep_best, self_get, self_set, save_trainer_state, log, bind, get,
      modify, ret.
    rewrite Hcb. cbn. reflexivity.
  - cbn. repeat split.
    + rewrite !list_lookup_alter_eq, Hcb. reflexivity.
    + rewrite lookup_insert_ne, lookup_insert_eq;
        [reflexivity | apply model_histo_distinct].
    + now rewrite lookup_insert_eq.
Qed.

End CheckpointFacts.

(** C5.  In [on_epoch_end] the loss compared with [best_loss] is the last
    validation loss when that value is truthy; when the last validation
    entry is [None], and also when it is a zero, the loss compared is the
    last training loss. *)
Theorem checkpoint_monitors_valid_or_train `{B : Backend}
    (self : nat) (epoch : Z) (w : World) (c : CheckpointState) (b t : Q)
    (tl : list Q) (vl : list (option Q)) (v : option Q) :
  callbacks w !! self = Some (Checkpoint c) ->
  best_loss c = Some b ->
  metrics w = {| train_losses := tl ++ [t]; valid_losses := vl ++ [v] |} ->
  let compares (eloss : Q) :=
    ModelCheckpoint.on_epoch_end self epoch w
    = if Qltb eloss b then ModelCheckpoint.keep_best self epoch eloss w
      else (Ok tt, w) in
  (v = None -> compares t) /\
  (forall q, v = Some q -> (q == 0)%Q -> compares t) /\
  (forall q, v = Some q -> ~ (q == 0)%Q -> compares q).
Proof.
  intros Hcb Hb Hm compares. unfold compares. repeat split.
  - intros ->. apply (on_epoch_end_compare _ _ _ c); auto.
    rewrite Hm. apply monitored_loss_none.
  - intros q -> Hq. apply (on_epoch_end_compare _ _ _ c); auto.
    rewrite Hm. now apply monitored_loss_zero.
  - intros q -> Hq. apply (on_epoch_end_compare _ _ _ c); auto.
    rewrite Hm. now apply monitored_loss_truthy.
Qed.

Lemma checkpoint_monitors_valid_or_train_witness :
  let w := Bench.watching 1 {| train_losses := [] ++ [1 # 2];
                               valid_losses := [] ++ [Some 0%Q] |} in
  (callbacks w !! 0%nat = Some (Checkpoint (Bench.tracked 1)) /\
   best_loss (Bench.tracked 1) = Some 1%Q /\
   metrics w = {| train_losses := [] ++ [1 # 2];
                  valid_losses := [] ++ [Some 0%Q] |}) /\
  ModelCheckpoint.on_epoch_end 0 1 w
  = ModelCheckpoint.keep_best 0 1 (1 # 2) w.
Proof.
  intros w. split; [repeat split; reflexivity|].
  destruct (checkpoint_monitors_valid_or_train (B := Bench.scripted)
              0 1 w (Bench.tracked 1) 1 (1 # 2) [] [] (Some 0%Q)
              eq_refl eq_refl eq_refl) as (_ & H & _).
  exact (H 0%Q eq_refl (Qeq_refl 0)).
Defined.

(** C7.  [on_epoch_end] rewrites the best snapshot and writes the two
    checkpoint files exactly when the monitored loss is strictly below
    [best_loss]; otherwise it changes nothing.  On a fresh trainer whose
    epochs have the losses 0.5, 0.5, 0.4, 0.6, the checkpoint is written in
    the first and in the third epoch only. *)
Theorem checkpoint_saves_on_strict_improvement `{B : Backend}
    (self : nat) (epoch : Z) (w : World) (c : CheckpointState)
    (b eloss : Q) :
  callbacks w !! self = Some (Checkpoint c) ->
  best_loss c = Some b ->
  ModelCheckpoint.monitored_loss (metrics w) = Ok eloss ->
  ((eloss < b)%Q ->
   exists w', ModelCheckpoint.on_epoch_end self epoch w = (Ok tt, w') /\
     callbacks w' !! self
     = Some (Checkpoint {| basename := basename c; reset := reset c;
                           load_best := load_best c;
                           best_model := Some (model w);
                           best_epoch := Some epoch;
                           best_loss := Some eloss |}) /\
     files w' !! (basename c +:+ ".model") = Some (ModelFile (model w)) /\
     files w' !! (basename c +:+ ".histo") = Some (HistoFile (metrics w)) /\
     trace w' = trace w ++ [EvSave (basename c)]) /\
  (~ (eloss < b)%Q ->
   ModelCheckpoint.on_epoch_end self epoch w = (Ok tt, w)) /\
  (let run := DeepNetTrainer.fit_loader 4
                (Bench.loader (Bench.script [1 # 2; 1 # 2; 2 # 5; 3 # 5]) 1)
                None
                (Bench.trainer None
                   [ModelCheckpoint.__init__ "ck/best" false false]) in
   fst run = Ok tt /\
   train_losses (metrics (snd run)) = [1 # 2; 1 # 2; 2 # 5; 3 # 5]%Q /\
   saving_epochs None (trace (snd run)) = [1; 3]).
Proof.
  intros Hcb Hb Hm. repeat split.
  - intros Hlt%Qltb_lt.
    rewrite (on_epoch_end_compare _ _ _ _ _ _ Hcb Hb Hm), Hlt.
    apply keep_best_effect, Hcb.
  - intros Hge%Qltb_nlt.
    now rewrite (on_epoch_end_compare _ _ _ _ _ _ Hcb Hb Hm), Hge.
Qed.

Lemma checkpoint_saves_on_strict_improvement_witness :
  let w := Bench.watching (1 # 2)
             {| train_losses := [1 # 2; 1 # 2];
                valid_losses := [None; None] |} in
  (callbacks w !! 0%nat = Some (Checkpoint (Bench.tracked (1 # 2))) /\
   best_loss (Bench.tracked (1 # 2)) = Some (1 # 2) /\
   ModelCheckpoint.monitored_loss (metrics w) = Ok (1 # 2)) /\
  ModelCheckpoint.on_epoch_end 0 2 w = (Ok tt, w).
Proof.
  intros w. split; [repeat split; reflexivity|].
  destruct (checkpoint_saves_on_strict_improvement (B := Bench.scripted)
              0 2 w (Bench.tracked (1 # 2)) (1 # 2) (1 # 2)
              eq_refl eq_refl eq_refl) as (_ & H & _).
  apply H. intros Hlt. apply (Qlt_irrefl _ Hlt).
Defined.

(** ** The learning-rate finder *)

Section SweepFacts.
Context {B : Backend}.
Import DeepNetTrainer.

Ltac use_sweep_IH :=
  match goal with
  | IH : forall st w, _ |- context [sweep _ _ _ ?s ?w'] =>
      destruct (IH s w') as (-> & -> & ->); cbn; auto
  end.

(** The sweep touches the model only. *)
Lemma sweep_frame lr_at num_it todo :
  forall st w,
    files (snd (sweep lr_at num_it todo st w)) = files w /\
    metrics (snd (sweep lr_at num_it todo st w)) = metrics w /\
    trace (snd (sweep lr_at num_it todo st w)) = trace w.
Proof.
  induction todo as [|[i xy] todo IH]; intros st w; cbn; [auto|].
  unfold bind, get, lift, modify, ret.
  destruct (sgd_step (model w) (lr_at i) xy) as [[p iloss]|e]; cbn; [|auto].
  destruct (Qltb iloss (best st)); [use_sweep_IH|].
  destruct (_ || _); cbn; [auto | use_sweep_IH].
Qed.

(** The sweep records one loss per batch it runs, and runs no more batches
    than the loader yields. *)
Lemma sweep_records_at_most lr_at num_it todo :
  forall st w st' w',
    sweep lr_at num_it todo st w = (Ok st', w') ->
    (length (losses st') <= length (losses st) + length todo)%nat.
Proof.
  induction todo as [|[i xy] todo IH]; intros st w st' w'; cbn.
  - unfold ret. intros [= <- <-]. lia.
  - unfold bind, get, lift, modify, ret.
    destruct (sgd_step (model w) (lr_at i) xy) as [[p iloss]|e]; cbn;
      [|discriminate].
    destruct (Qltb iloss (best st)).
    + intros H%IH. cbn in H. rewrite length_app in H. cbn in H. lia.
    + destruct (_ || _); cbn.
      * intros [= <- <-]. cbn. rewrite length_app. cbn. lia.
      * intros H%IH. cbn in H. rewrite length_app in H. cbn in H. lia.
Qed.

End SweepFacts.

(** C6.  However [lr_find] ends, with a result or with an exception, the
    model parameters and the history are those of before the call. *)
Theorem lr_find_restores_model_and_history `{B : Backend}
    (dataloader : Loader) (min_lr max_lr : Q) (linear : bool)
    (num_it : option Z) (w : World) :
  let r := DeepNetTrainer.lr_find dataloader min_lr max_lr linear num_it w in
  model (snd r) = model w /\ metrics (snd r) = metrics w.
Proof.
  cbv zeta. unfold DeepNetTrainer.lr_find.
  destruct (Qis_zero min_lr); [cbn; auto|].
  match goal with
  | |- context [if ?b then raise ZeroDivisionError else _] => destruct b
  end; [cbn; auto|].
  unfold DeepNetTrainer.save_state, save_trainer_state,
    DeepNetTrainer.load_state, load_trainer_state, finally, log, bind, get,
    modify, ret.
  cbn.
  match goal with
  | |- context [DeepNetTrainer.sweep ?a ?b ?c ?d ?w1] =>
      destruct (sweep_frame a b c d w1) as (Hf & Hm & _);
      destruct (DeepNetTrainer.sweep a b c d w1) as [r w2]
  end.
  cbn in *. rewrite Hf.
  rewrite lookup_insert_ne by done.
  rewrite lookup_insert_eq. cbn. rewrite Hf, lookup_insert_eq. cbn.
  destruct r; cbn; auto.
Qed.

(** An exception raised in the middle of the sweep reaches the caller, with
    the model restored. *)
Example lr_find_restores_after_error :
  let w := Bench.trainer None [] in
  let r := DeepNetTrainer.lr_find
             (Bench.loader (Bench.failing 2 (RuntimeError "nan")) 4)
             (1 # 10) 10 true None w in
  fst r = Raise (RuntimeError "nan") /\ model (snd r) = model w.
Proof. split; reflexivity. Qed.

(** C3 at num_it = 2 on a loader of four batches whose losses 3, 2, 1, 0.5
    keep improving: the sweep runs all four batches, because the test of the
    batch budget sits in the [elif] of the new-best test and is skipped when
    the loss of batch [num_it - 1] is a new best. *)
Theorem lr_find_overruns_batch_budget :
  let r := DeepNetTrainer.lr_find
             (Bench.loader (Bench.script [3; 2; 1; 1 # 2]%Q) 4)
             (1 # 10000000) 10 false (Some 2) (Bench.trainer None []) in
  exists rates, fst r = Ok (rates, [3; 2; 1; 1 # 2]%Q) /\
                length rates = 4%nat.
Proof. eexists. split; reflexivity. Qed.

(** With the same budget the sweep does stop after two batches when the
    second loss is not a new best. *)
Example lr_find_honours_budget_without_new_best :
  let r := DeepNetTrainer.lr_find
             (Bench.loader (Bench.script [3; 4; 1; 1 # 2]%Q) 4)
             (1 # 10000000) 10 false (Some 2) (Bench.trainer None []) in
  exists rates, fst r = Ok (rates, [3; 4]%Q).
Proof. eexists. reflexivity. Qed.

(** ** The scheduler step of an epoch *)

Section SchedulerFacts.
Context {B : Backend}.
Import DeepNetTrainer.

(** Without a scheduler nothing is stepped. *)
Lemma scheduler_step_none w :
  scheduler w = None -> scheduler_step w = (Ok tt, w).
Proof. intros H. unfold scheduler_step, bind, get. now rewrite H. Qed.

(** A scheduler of another class is stepped without a metric. *)
Lemma scheduler_step_plain w sch :
  scheduler w = Some sch ->
  class_name sch <> "ReduceLROnPlateau" ->
  scheduler_step w = log (EvSchedulerStep None) w.
Proof.
  intros H Hn. unfold scheduler_step, bind, get. rewrite H.
  now apply String.eqb_neq in Hn as ->.
Qed.

(** A [ReduceLROnPlateau] reads [self.valid_loss]: it is stepped with the
    value found there, without a metric when the value is [None], and the
    read fails when the attribute was never assigned. *)
Lemma scheduler_step_plateau w sch :
  scheduler w = Some sch ->
  class_name sch = "ReduceLROnPlateau" ->
  scheduler_step w
  = match valid_loss w with
    | Some (Some l) => log (EvSchedulerStep (Some l)) w
    | Some None => log (EvSchedulerStep None) w
    | None => (Raise AttributeError, w)
    end.
Proof.
  intros H Hc. unfold scheduler_step, attr, bind, get, raise, ret.
  rewrite H. apply String.eqb_eq in Hc as ->.
  now destruct (valid_loss w) as [[l|]|].
Qed.

End SchedulerFacts.

(** C4 on a fresh trainer with a [ReduceLROnPlateau] scheduler and no
    validation data: the first epoch ends with [AttributeError], raised by
    the read of [self.valid_loss], which only the validation phase assigns;
    the scheduler is not stepped. *)
Theorem plateau_scheduler_without_validation_raises :
  let r := DeepNetTrainer.fit_loader 1
             (Bench.loader (Bench.script [1]%Q) 1) None
             (Bench.trainer
                (Some {| class_name := "ReduceLROnPlateau";
                         sched_last_epoch := 0 |}) []) in
  fst r = Raise AttributeError /\
  train_losses (metrics (snd r)) = [1]%Q /\
  scheduler_steps (trace (snd r)) = [].
Proof. repeat split; reflexivity. Qed.

(** After a fit with validation data the attribute is there, and a later
    fit without validation data steps the scheduler with that stale loss. *)
Example plateau_scheduler_steps_with_stale_loss :
  let sch := {| class_name := "ReduceLROnPlateau"; sched_last_epoch := 0 |} in
  let d := Bench.loader (Bench.script [1; 2; 3]%Q) 1 in
  let w1 := snd (DeepNetTrainer.fit_loader 1 d (Some d)
                   (Bench.trainer (Some sch) [])) in
  let r := DeepNetTrainer.fit_loader 1 d None w1 in
  scheduler_steps (trace w1) = [Some 2%Q] /\
  fst r = Ok tt /\
  valid_losses (metrics (snd r)) = [Some 2%Q; None] /\
  scheduler_steps (trace (snd r)) = [Some 2%Q; Some 2%Q].
Proof. repeat split; reflexivity. Qed.

(** ** [fit_loader]: interrupts and empty loaders *)

Lemma range_cons a b : a < b -> range a b = a :: range (a + 1) b.
Proof.
  intros H. unfold range.
  replace (Z.to_nat (b - a)) with (S (Z.to_nat (b - (a + 1)))) by lia.
  cbn [seq map]. f_equal; [lia|].
  rewrite <- seq_shift, map_map. apply map_ext. intros i. lia.
Qed.

Lemma hook_calls_app tr1 tr2 :
  hook_calls (tr1 ++ tr2) = hook_calls tr1 ++ hook_calls tr2.
Proof. apply flat_map_app. Qed.

Lemma hook_calls_hooks h l :
  hook_calls (map (fun i => EvHook i h) l) = map (fun i => (i, h)) l.
Proof. induction l; cbn; [reflexivity | now f_equal]. Qed.

Section TrainEndFacts.
Context {B : Backend}.
Import DeepNetTrainer.

Lemma call_quiet_end n i w cb :
  callbacks w !! i = Some cb ->
  quiet_end n cb ->
  call i (OnTrainEnd n) w
  = (Ok tt, set_trace (trace w ++ [EvHook i (OnTrainEnd n)]) w).
Proof.
  intros Hcb Hq. unfold call, log, bind, get, modify. cbn. rewrite Hcb.
  destruct cb as [|c|f]; cbn in *.
  - reflexivity.
  - unfold ModelCheckpoint.on_train_end, ModelCheckpoint.self_get, bind, get,
      ret.
    cbn. rewrite Hcb, Hq. reflexivity.
  - unfold lift. now rewrite Hq.
Qed.

Lemma for_each_quiet_end n m :
  forall k w,
    (forall i, (k <= i < k + m)%nat ->
       exists cb, callbacks w !! i = Some cb /\ quiet_end n cb) ->
    for_each (seq k m) (fun i => call i (OnTrainEnd n)) w
    = (Ok tt,
       set_trace (trace w ++ map (fun i => EvHook i (OnTrainEnd n)) (seq k m))
         w).
Proof.
  induction m as [|m IH]; intros k w H; cbn [seq for_each map].
  - unfold ret. rewrite app_nil_r. now destruct w.
  - destruct (H k ltac:(lia)) as (cb & Hcb & Hq).
    rewrite (bind_ok _ _ _ _ _ (call_quiet_end n k w cb Hcb Hq)).
    rewrite IH.
    + cbn. now rewrite <- app_assoc.
    + intros i Hi. cbn. apply H. lia.
Qed.

(** With quiet callbacks the [on_train_end] round returns, and all it does
    is invoke the hook on each callback in registration order. *)
Lemma fire_quiet_end n w :
  Forall (quiet_end n) (callbacks w) ->
  fire (OnTrainEnd n) w
  = (Ok tt,
     set_trace (trace w ++ map (fun i => EvHook i (OnTrainEnd n))
                             (seq 0 (length (callbacks w)))) w).
Proof.
  intros H. unfold fire, bind, get. apply for_each_quiet_end.
  intros i Hi.
  destruct (lookup_lt_is_Some_2 (callbacks w) i) as [cb Hcb]; [lia|].
  exists cb. split; [assumption|]. eapply Forall_lookup_1; eauto.
Qed.

End TrainEndFacts.

(** What the handler of [fit_loader] does when the [try] block ends with an
    exception [e].  If [e] is [KeyboardInterrupt], [fit_loader] carries on
    with the [on_train_end] round from the world as the interrupt left it;
    when every callback is quiet at [on_train_end], the call returns
    normally, having invoked [on_train_end] on every registered callback,
    in order, with the history unchanged since the interrupt.  Any other
    [e] reaches the caller, and no [on_train_end] hook runs. *)
Theorem interrupt_ends_fit_gracefully `{B : Backend}
    (n_epochs : Z) (train_data : Loader) (valid_data : option Loader)
    (w w0 w1 : World) (e : Exn) :
  DeepNetTrainer.fit_setup train_data valid_data w = (Ok tt, w0) ->
  DeepNetTrainer.fit_body n_epochs train_data valid_data w0 = (Raise e, w1) ->
  (e = KeyboardInterrupt ->
   DeepNetTrainer.fit_loader n_epochs train_data valid_data w
   = DeepNetTrainer.fire (OnTrainEnd n_epochs) w1 /\
   (Forall (quiet_end n_epochs) (callbacks w1) ->
    exists w2,
      DeepNetTrainer.fit_loader n_epochs train_data valid_data w
      = (Ok tt, w2) /\
      metrics w2 = metrics w1 /\
      model w2 = model w1 /\
      hook_calls (trace w2)
      = hook_calls (trace w1)
        ++ map (fun i => (i, OnTrainEnd n_epochs))
             (seq 0 (length (callbacks w1))))) /\
  (e <> KeyboardInterrupt ->
   DeepNetTrainer.fit_loader n_epochs train_data valid_data w = (Raise e, w1)).
Proof.
  intros Hs Hb.
  assert (Hf : DeepNetTrainer.fit_loader n_epochs train_data valid_data w
               = bind (except_KeyboardInterrupt
                         (DeepNetTrainer.fit_body n_epochs train_data
                            valid_data))
                   (fun _ => DeepNetTrainer.fire (OnTrainEnd n_epochs)) w0).
  { unfold DeepNetTrainer.fit_loader. now rewrite (bind_ok _ _ _ _ _ Hs). }
  split.
  - intros ->.
    assert (Hg : DeepNetTrainer.fit_loader n_epochs train_data valid_data w
                 = DeepNetTrainer.fire (OnTrainEnd n_epochs) w1).
    { rewrite Hf. erewrite bind_ok; [reflexivity|].
      unfold except_KeyboardInterrupt. now rewrite Hb. }
    split; [exact Hg|]. intros Hq. rewrite Hg, (fire_quiet_end _ _ Hq).
    eexists. split; [reflexivity|]. cbn.
    now rewrite hook_calls_app, hook_calls_hooks.
  - intros He. rewrite Hf. apply bind_raise.
    unfold except_KeyboardInterrupt. rewrite Hb. now destruct e.
Qed.

Lemma interrupt_ends_fit_gracefully_witness :
  let train := Bench.loader (Bench.failing 3 KeyboardInterrupt) 2 in
  let w := Bench.trainer None
             [Plain; ModelCheckpoint.__init__ "ck/best" false false] in
  let w0 := snd (DeepNetTrainer.fit_setup train None w) in
  let w1 := snd (DeepNetTrainer.fit_body 2 train None w0) in
  (DeepNetTrainer.fit_setup train None w = (Ok tt, w0) /\
   DeepNetTrainer.fit_body 2 train None w0 = (Raise KeyboardInterrupt, w1)) /\
  train_losses (metrics w1) = [2 # 2]%Q /\
  exists w2,
    DeepNetTrainer.fit_loader 2 train None w = (Ok tt, w2) /\
    metrics w2 = metrics w1 /\
    model w2 = model w1 /\
    hook_calls (trace w2)
    = hook_calls (trace w1)
      ++ map (fun i => (i, OnTrainEnd 2)) (seq 0 (length (callbacks w1))).
Proof.
  intros train w w0 w1.
  split; [split; vm_compute; reflexivity|]. split; [vm_compute; reflexivity|].
  assert (H1 : DeepNetTrainer.fit_setup train None w = (Ok tt, w0))
    by (vm_compute; reflexivity).
  assert (H2 : DeepNetTrainer.fit_body 2 train None w0
               = (Raise KeyboardInterrupt, w1))
    by (vm_compute; reflexivity).
  destruct (interrupt_ends_fit_gracefully (B := Bench.scripted)
              2 train None w w0 w1 KeyboardInterrupt H1 H2)
    as [H _].
  destruct (H eq_refl) as [_ Hq]. apply Hq.
  vm_compute. repeat constructor.
Defined.

(** C9 on a trainer with a [ModelCheckpoint] built with [load_best=True],
    followed by the base callback, and a training loader whose first batch
    is interrupted, so that no checkpoint has been written: the [try] block
    ends with [KeyboardInterrupt] and the handler swallows it, but the
    [on_train_end] of the checkpointer then loads the file that is not
    there.  [FileNotFoundError] reaches the caller of [fit_loader], and
    [on_train_end] is invoked on the first of the two callbacks only.
    [on_train_begin] tests [os.path.isfile] before it loads; [on_train_end]
    does not. *)
Theorem interrupt_before_first_checkpoint_raises :
  let train := Bench.loader (Bench.failing 0 KeyboardInterrupt) 1 in
  let w := Bench.trainer None
             [ModelCheckpoint.__init__ "ck/best" false true; Plain] in
  let body := DeepNetTrainer.fit_body 2 train None
                (snd (DeepNetTrainer.fit_setup train None w)) in
  let r := DeepNetTrainer.fit_loader 2 train None w in
  fst body = Raise KeyboardInterrupt /\
  fst r = Raise FileNotFoundError /\
  length (callbacks (snd r)) = 2%nat /\
  train_end_calls (trace (snd r)) = [0%nat] /\
  files (snd r) = ∅.
Proof. vm_compute. repeat split. Qed.

(** C10.  When the training loader yields no batch and at least one epoch
    is asked for, [fit_loader] raises [ZeroDivisionError] in the first
    epoch, at [epo_loss / epo_samples], once the [on_train_begin] and
    [on_epoch_begin] rounds have returned; nothing is appended to the
    history and no later hook runs. *)
Theorem fit_on_empty_loader_raises_division_error `{B : Backend}
    (n_epochs : Z) (train_data : Loader) (valid_data : option Loader)
    (w w0 w1 w2 : World) :
  batches train_data = [] ->
  1 <= n_epochs ->
  DeepNetTrainer.fit_setup train_data valid_data w = (Ok tt, w0) ->
  DeepNetTrainer.fire (OnTrainBegin n_epochs) w0 = (Ok tt, w1) ->
  DeepNetTrainer.fire (OnEpochBegin (last_epoch w1 + 1))
    (set_training true w1) = (Ok tt, w2) ->
  DeepNetTrainer.fit_loader n_epochs train_data valid_data w
  = (Raise ZeroDivisionError, w2).
Proof.
  intros Hempty Hn Hs Hb He.
  assert (Hbody : DeepNetTrainer.fit_body n_epochs train_data valid_data w0
                  = (Raise ZeroDivisionError, w2)).
  { unfold DeepNetTrainer.fit_body. rewrite (bind_ok _ _ _ _ _ Hb).
    unfold bind at 1, get. rewrite range_cons by lia. cbn [for_each].
    apply bind_raise. unfold DeepNetTrainer.epoch. apply bind_raise.
    unfold DeepNetTrainer.training_phase.
    rewrite (bind_ok (modify (set_training true)) _ w1 tt
               (set_training true w1) eq_refl).
    rewrite (bind_ok _ _ _ _ _ He).
    rewrite Hempty.
    cbn [enumerate length seq map combine DeepNetTrainer.fold_each].
    reflexivity. }
  unfold DeepNetTrainer.fit_loader. rewrite (bind_ok _ _ _ _ _ Hs).
  apply bind_raise. unfold except_KeyboardInterrupt. now rewrite Hbody.
Qed.

Lemma fit_on_empty_loader_raises_division_error_witness :
  let train := Bench.loader (Bench.script []) 0 in
  let w := Bench.trainer None [Plain] in
  let w0 := snd (DeepNetTrainer.fit_setup train None w) in
  let w1 := snd (DeepNetTrainer.fire (OnTrainBegin 3) w0) in
  let w2 := snd (DeepNetTrainer.fire (OnEpochBegin (last_epoch w1 + 1))
                   (set_training true w1)) in
  (batches train = [] /\
   1 <= 3 /\
   DeepNetTrainer.fit_setup train None w = (Ok tt, w0) /\
   DeepNetTrainer.fire (OnTrainBegin 3) w0 = (Ok tt, w1) /\
   DeepNetTrainer.fire (OnEpochBegin (last_epoch w1 + 1))
     (set_training true w1) = (Ok tt, w2)) /\
  DeepNetTrainer.fit_loader 3 train None w = (Raise ZeroDivisionError, w2) /\
  train_losses (metrics w2) = [].
Proof.
  intros train w w0 w1 w2.
  split; [repeat split; try (vm_compute; reflexivity); lia|].
  split; [|vm_compute; reflexivity].
  apply (fit_on_empty_loader_raises_division_error (B := Bench.scripted)
           3 train None w w0 w1 w2); try (vm_compute; reflexivity); lia.
Defined.

(** ** [fit_loader]: the history and the epoch numbers *)

Section FitFacts.
Context {B : Backend}.
Import DeepNetTrainer.

Lemma Step_refl w : Steady w w.
Proof. split; intros; rewrite ?app_nil_r; auto. Qed.

Lemma Step_trans w w1 w2 k1 k2 es1 es2 :
  Step w w1 k1 es1 -> Step w1 w2 k2 es2 ->
  Step w w2 (k1 + k2) (fun j => es1 j ++ es2 j).
Proof.
  intros [a1 b1 c1 d1] [a2 b2 c2 d2]. split.
  - congruence.
  - congruence.
  - lia.
  - intros j. now rewrite d2, d1, app_assoc.
Qed.

Lemma Step_ext w w' k k' es es' :
  k = k' -> (forall j, es j = es' j) -> Step w w' k es -> Step w w' k' es'.
Proof.
  intros -> He [a b c d]. split; auto. intros j. now rewrite <- He.
Qed.

Lemma Steady_trans w w1 w2 : Steady w w1 -> Steady w1 w2 -> Steady w w2.
Proof.
  intros H1 H2.
  eapply Step_ext; [| |exact (Step_trans _ _ _ _ _ _ _ H1 H2)]; auto.
Qed.

Lemma Steady_Step w w1 w2 k es :
  Steady w w1 -> Step w1 w2 k es -> Step w w2 k es.
Proof.
  intros H1 H2.
  eapply Step_ext; [| |exact (Step_trans _ _ _ _ _ _ _ H1 H2)]; auto.
Qed.

Lemma Step_Steady w w1 w2 k es :
  Step w w1 k es -> Steady w1 w2 -> Step w w2 k es.
Proof.
  intros H1 H2. eapply Step_ext; [| |exact (Step_trans _ _ _ _ _ _ _ H1 H2)].
  - lia.
  - intros j. cbn. apply app_nil_r.
Qed.

Lemma keeps_history_shape cb : keeps_history (shape cb) <-> keeps_history cb.
Proof. now destruct cb. Qed.

Lemma keeps_history_same_shape (l l' : list Callback) :
  shape <$> l' = shape <$> l ->
  Forall keeps_history l -> Forall keeps_history l'.
Proof.
  intros H Hl.
  assert (Hs : Forall keeps_history (shape <$> l)).
  { rewrite Forall_fmap. eapply Forall_impl; [exact Hl|].
    intros cb. apply keeps_history_shape. }
  rewrite <- H, Forall_fmap in Hs.
  eapply Forall_impl; [exact Hs|]. intros cb. apply keeps_history_shape.
Qed.

Lemma Step_good w w' k es :
  Step w w' k es ->
  Forall keeps_history (callbacks w) -> Forall keeps_history (callbacks w').
Proof. intros [H _ _ _]. now apply keeps_history_same_shape. Qed.

Lemma Step_callbacks_length w w' k es :
  Step w w' k es -> length (callbacks w') = length (callbacks w).
Proof.
  intros [H _ _ _]. apply (f_equal length) in H. now rewrite !length_fmap in H.
Qed.

(** Rules *)
Lemma steady_ret {A} (a : A) : steady (ret a).
Proof. intros w _ a' w' [= <- <-]. apply Step_refl. Qed.

Lemma steady_raise {A} e : steady (@raise World A e).
Proof. intros w _ a' w' [=]. Qed.

Lemma steady_lift {A} (o : Outcome A) : steady (lift o).
Proof. intros w _ a' w'. unfold lift. intros [= -> <-]. apply Step_refl. Qed.

Lemma steady_get : steady get.
Proof. intros w _ a' w' [= <- <-]. apply Step_refl. Qed.

Lemma steady_bind {A C} (c : M World A) (k : A -> M World C) :
  steady c -> (forall a, steady (k a)) -> steady (bind c k).
Proof.
  intros Hc Hk w Hg b w2 (a & w1 & H1 & H2)%bind_inv_ok.
  pose proof (Hc w Hg a w1 H1) as S1.
  eapply Steady_trans; [exact S1|].
  apply (Hk a w1 (Step_good _ _ _ _ S1 Hg) b w2 H2).
Qed.

Lemma steady_modify (f : World -> World) :
  (forall w, Steady w (f w)) -> steady (modify f).
Proof. intros H w _ a w'. unfold modify. intros [= <- <-]. apply H. Qed.

Lemma steady_for_each {A} (l : list A) (body : A -> M World unit) :
  (forall x, steady (body x)) -> steady (for_each l body).
Proof.
  intros H. induction l as [|x l IH]; cbn [for_each].
  - apply steady_ret.
  - apply steady_bind; auto.
Qed.

Lemma steady_fold_each {A C} (l : list A) (body : C -> A -> M World C) :
  (forall acc x, steady (body acc x)) ->
  forall acc, steady (fold_each l acc body).
Proof.
  intros H. induction l as [|x l IH]; intros acc; cbn [fold_each].
  - apply steady_ret.
  - apply steady_bind; auto.
Qed.

Lemma steady_attr {A} (f : World -> option A) : steady (attr f).
Proof.
  intros w _ a w'. unfold attr, bind, get, ret, raise.
  destruct (f w); intros [= <- <-]. apply Step_refl.
Qed.

Lemma epochs_seen_app j tr1 tr2 :
  epochs_seen j (tr1 ++ tr2) = epochs_seen j tr1 ++ epochs_seen j tr2.
Proof. apply flat_map_app. Qed.

Ltac steady_setter :=
  split; [reflexivity | reflexivity | cbn; lia
         | intros j; cbn -[epochs_seen]; rewrite ?epochs_seen_app; cbn;
           now rewrite ?app_nil_r].

Lemma steady_log ev :
  (forall j, epochs_seen j [ev] = []) -> steady (log ev).
Proof.
  intros H. apply steady_modify. intros w.
  split; [reflexivity | reflexivity | cbn; lia |].
  intros j. unfold set_trace, trace at 1. now rewrite epochs_seen_app, H.
Qed.

Lemma shape_on_self_best f :
  (forall c, shape (Checkpoint (f c)) = shape (Checkpoint c)) ->
  forall cb, shape (ModelCheckpoint.on_self f cb) = shape cb.
Proof. intros H [|c|g]; cbn; auto. apply H. Qed.

Lemma shape_alter g i (l : list Callback) :
  (forall cb, shape (g cb) = shape cb) ->
  shape <$> alter g i l = shape <$> l.
Proof.
  intros H. revert i. induction l as [|x l IH]; intros [|i]; cbn; auto.
  - now rewrite H.
  - now rewrite IH.
Qed.

Lemma steady_self_set i f :
  (forall c, shape (Checkpoint (f c)) = shape (Checkpoint c)) ->
  steady (ModelCheckpoint.self_set i f).
Proof.
  intros H. apply steady_modify. intros w.
  split; [| reflexivity | cbn; lia | intros j; cbn; now rewrite app_nil_r].
  apply shape_alter, shape_on_self_best, H.
Qed.

Lemma steady_self_get i : steady (ModelCheckpoint.self_get i).
Proof.
  intros w _ a w'. unfold ModelCheckpoint.self_get, bind, get, ret, raise.
  destruct (callbacks w !! i) as [[|c|f]|]; intros [= <- <-]. apply Step_refl.
Qed.

Lemma steady_save b p m : steady (save_trainer_state b p m).
Proof.
  unfold save_trainer_state.
  repeat (apply steady_bind; [|intros _]).
  - apply steady_modify. intros w. steady_setter.
  - apply steady_modify. intros w. steady_setter.
  - now apply steady_log.
Qed.

Lemma steady_keep_best i e l : steady (ModelCheckpoint.keep_best i e l).
Proof.
  unfold ModelCheckpoint.keep_best.
  apply steady_bind; [apply steady_get | intros w0].
  apply steady_bind; [apply steady_self_get | intros c].
  repeat (apply steady_bind; [now apply steady_self_set | intros _]).
  apply steady_save.
Qed.

Lemma steady_on_epoch_end i e : steady (ModelCheckpoint.on_epoch_end i e).
Proof.
  unfold ModelCheckpoint.on_epoch_end.
  apply steady_bind; [apply steady_get | intros w0].
  apply steady_bind; [apply steady_lift | intros eloss].
  apply steady_bind; [apply steady_self_get | intros c].
  destruct (best_loss c) as [b|]; [|apply steady_raise].
  destruct (Qltb eloss b); [apply steady_keep_best | apply steady_ret].
Qed.

Lemma steady_on_train_end i n : steady (ModelCheckpoint.on_train_end i n).
Proof.
  intros w Hg a w'.
  unfold ModelCheckpoint.on_train_end, ModelCheckpoint.self_get, bind, get,
    ret, raise.
  destruct (callbacks w !! i) as [[|c|f]|] eqn:E; try discriminate.
  assert (Hk : keeps_history (Checkpoint c)) by (eapply Forall_lookup_1; eauto).
  destruct Hk as [_ ->]. intros [= <- <-]. apply Step_refl.
Qed.

Lemma steady_call i h : quiet_hook h -> steady (call i h).
Proof.
  intros Hq. unfold call.
  apply steady_bind; [apply steady_log; now destruct h | intros _].
  apply steady_bind; [apply steady_get | intros w0].
  destruct (callbacks w0 !! i) as [[|c|f]|].
  - apply steady_ret.
  - destruct h; try apply steady_ret; try easy.
    + apply steady_on_train_end.
    + apply steady_on_epoch_end.
  - apply steady_lift.
  - apply steady_ret.
Qed.

Lemma steady_fire h : quiet_hook h -> steady (fire h).
Proof.
  intros Hq. unfold fire.
  apply steady_bind; [apply steady_get | intros w0].
  apply steady_for_each. intros i. now apply steady_call.
Qed.

Lemma steady_train_batch e acc ib : steady (train_batch e acc ib).
Proof.
  unfold train_batch. destruct ib as [curr_batch xy].
  apply steady_bind; [now apply steady_fire | intros _].
  apply steady_bind; [apply steady_get | intros w0].
  apply steady_bind; [apply steady_lift | intros [[p o] vloss]].
  apply steady_bind; [apply steady_modify; intros w; steady_setter | intros _].
  apply steady_bind; [apply steady_modify; intros w; steady_setter | intros _].
  apply steady_bind; [apply steady_get | intros w1].
  apply steady_bind; [now apply steady_fire | intros _].
  apply steady_ret.
Qed.

Lemma steady_valid_batch e acc ib : steady (valid_batch e acc ib).
Proof.
  unfold valid_batch. destruct ib as [curr_batch xy].
  apply steady_bind; [now apply steady_fire | intros _].
  apply steady_bind; [apply steady_get | intros w0].
  apply steady_bind; [apply steady_lift | intros loss].
  apply steady_bind.
  - destruct loss as [vloss|]; [|apply steady_ret].
    destruct (epo_loss _ acc); [apply steady_ret | apply steady_raise].
  - intros total.
    apply steady_bind; [now apply steady_fire | intros _].
    apply steady_ret.
Qed.

Lemma steady_scheduler_step : steady scheduler_step.
Proof.
  unfold scheduler_step.
  apply steady_bind; [apply steady_get | intros w0].
  destruct (scheduler w0) as [sch|]; [|apply steady_ret].
  destruct (String.eqb _ _).
  - apply steady_bind; [apply steady_attr | intros [l|]]; now apply steady_log.
  - now apply steady_log.
Qed.

Lemma steady_validation_phase valid_data e :
  steady (validation_phase valid_data e).
Proof.
  unfold validation_phase.
  apply steady_bind; [apply steady_attr | intros [|]].
  - apply steady_bind;
      [apply steady_modify; intros w; steady_setter | intros _].
    apply steady_bind;
      [apply steady_fold_each; intros; apply steady_valid_batch
      | intros vacc].
    apply steady_bind.
    + destruct (epo_loss _ vacc); [|apply steady_ret].
      apply steady_bind; [apply steady_lift | intros mean; apply steady_ret].
    + intros v.
      apply steady_bind;
        [apply steady_modify; intros w; steady_setter | intros _].
      apply steady_modify; intros w; steady_setter.
  - apply steady_modify; intros w; steady_setter.
Qed.

Lemma steady_fit_setup train valid : steady (fit_setup train valid).
Proof.
  unfold fit_setup.
  apply steady_bind; [apply steady_modify; intros w; steady_setter | intros _].
  apply steady_bind; [apply steady_lift | intros nb].
  apply steady_modify; intros w; steady_setter.
Qed.

(** on_epoch_begin *)
Lemma call_epoch_begin i e w w' :
  call i (OnEpochBegin e) w = (Ok tt, w') ->
  Step w w' 0 (fun j => if (i =? j)%nat then [e] else []).
Proof.
  unfold call. intros (u & w1 & H1 & H2)%bind_inv_ok.
  unfold log, modify in H1. injection H1 as _ <-.
  assert (w' = set_trace (trace w ++ [EvHook i (OnEpochBegin e)]) w) as ->.
  { unfold bind, get, ret, lift in H2. cbn in H2.
    destruct (callbacks w !! i) as [[|c|f]|]; now injection H2. }
  split; [reflexivity | reflexivity | cbn; lia |].
  intros j. unfold set_trace, trace at 1. rewrite epochs_seen_app. cbn.
  now rewrite app_nil_r.
Qed.

Ltac nat_cases :=
  repeat match goal with
    | |- context [(?a <=? ?b)%nat] => destruct (Nat.leb_spec a b)
    | |- context [(?a <? ?b)%nat] => destruct (Nat.ltb_spec a b)
    | |- context [(?a =? ?b)%nat] => destruct (Nat.eqb_spec a b)
    end;
  cbn [andb app]; try reflexivity; try lia.

Lemma for_each_epoch_begin e m : forall k w w',
  for_each (seq k m) (fun i => call i (OnEpochBegin e)) w = (Ok tt, w') ->
  Step w w' 0 (fun j => if ((k <=? j) && (j <? k + m))%nat then [e] else []).
Proof.
  induction m as [|m IH]; intros k w w'; cbn [seq for_each].
  - intros [= <-]. eapply Step_ext; [reflexivity| |apply Step_refl].
    intros j. cbv beta. nat_cases.
  - intros ([] & w1 & H1 & H2)%bind_inv_ok.
    apply call_epoch_begin in H1. apply IH in H2.
    eapply Step_ext; [| |exact (Step_trans _ _ _ _ _ _ _ H1 H2)];
      [reflexivity|].
    intros j. cbv beta. nat_cases.
Qed.

Lemma fire_epoch_begin e w w' :
  fire (OnEpochBegin e) w = (Ok tt, w') ->
  Step w w' 0 (fun j => if (j <? length (callbacks w))%nat then [e] else []).
Proof.
  unfold fire, bind, get. intros H%for_each_epoch_begin.
  eapply Step_ext; [reflexivity| |exact H]. intros j. reflexivity.
Qed.

(** on_train_begin *)
Lemma Steady_Begin w w' : Steady w w' -> Begin w w' false.
Proof.
  intros [a b c d]. split; auto.
  - lia.
  - intros j. now rewrite d, app_nil_r.
Qed.

Lemma Begin_trans w w1 w2 b1 b2 :
  Begin w w1 b1 -> Begin w1 w2 b2 -> Begin w w2 (b1 || b2).
Proof.
  intros [a1 h1 e1 l1] [a2 h2 e2 l2]. split.
  - congruence.
  - congruence.
  - intros j. now rewrite e2.
  - rewrite l2. unfold len. rewrite h1, l1. now destruct b1, b2.
Qed.

Lemma is_checkpoint_shape cb : is_checkpoint (shape cb) = is_checkpoint cb.
Proof. now destruct cb. Qed.

Lemma checkpoint_at_same_shape (l l' : list Callback) i :
  shape <$> l' = shape <$> l -> checkpoint_at l' i = checkpoint_at l i.
Proof.
  intros H. apply (f_equal (fun x => x !! i)) in H.
  rewrite !list_lookup_fmap in H. unfold checkpoint_at.
  destruct (l' !! i) as [a|], (l !! i) as [b|]; cbn in H;
    try discriminate; auto.
  injection H as H.
  now rewrite <- (is_checkpoint_shape a), H, is_checkpoint_shape.
Qed.

Lemma call_train_begin i n w w' :
  Forall keeps_history (callbacks w) ->
  call i (OnTrainBegin n) w = (Ok tt, w') ->
  Begin w w' (checkpoint_at (callbacks w) i).
Proof.
  intros Hg. unfold call. intros ([] & w1 & H1 & H2)%bind_inv_ok.
  unfold log, modify in H1. injection H1 as <-.
  unfold bind at 1, get in H2. cbn [callbacks set_trace] in H2.
  unfold checkpoint_at.
  destruct (callbacks w !! i) as [[|c|f]|] eqn:E; cbn [is_checkpoint].
  - injection H2 as <-. apply Steady_Begin. steady_setter.
  - assert (Hk : keeps_history (Checkpoint c))
      by (eapply Forall_lookup_1; eauto).
    destruct Hk as [Hr _].
    unfold ModelCheckpoint.on_train_begin, ModelCheckpoint.self_get,
      ModelCheckpoint.isfile, ModelCheckpoint.self_set, bind, get, ret, modify,
      lift in H2.
    cbn in H2. rewrite E, Hr in H2. cbn in H2.
    destruct (scheduler w) as [sch|]; cbn in H2;
      (destruct (0 <? len (train_losses (metrics w)));
       [destruct (ModelCheckpoint.monitored_loss _) as [l|]; [|discriminate]|];
       injection H2 as <-;
       (split; cbn -[epochs_seen];
        [| reflexivity
         | intros j; rewrite epochs_seen_app; cbn; now rewrite app_nil_r
         | reflexivity];
        rewrite !shape_alter; auto; apply shape_on_self_best; reflexivity)).
  - unfold lift in H2. injection H2 as _ <-. apply Steady_Begin. steady_setter.
  - injection H2 as <-. apply Steady_Begin. steady_setter.
Qed.

Lemma Begin_good w w' b :
  Begin w w' b -> Forall keeps_history (callbacks w) ->
  Forall keeps_history (callbacks w').
Proof. intros [H _ _ _]. now apply keeps_history_same_shape. Qed.

Lemma existsb_pointwise {A} (f g : A -> bool) (l : list A) :
  (forall x, f x = g x) -> existsb f l = existsb g l.
Proof.
  intros H. induction l as [|x l IH]; cbn; [reflexivity | now rewrite H, IH].
Qed.

Lemma existsb_through_map {A C} (f : C -> bool) (g : A -> C) (l : list A) :
  existsb f (map g l) = existsb (fun x => f (g x)) l.
Proof. induction l as [|x l IH]; cbn; [reflexivity | now rewrite IH]. Qed.

Lemma for_each_train_begin n m : forall k w w',
  Forall keeps_history (callbacks w) ->
  for_each (seq k m) (fun i => call i (OnTrainBegin n)) w = (Ok tt, w') ->
  Begin w w' (existsb (checkpoint_at (callbacks w)) (seq k m)).
Proof.
  induction m as [|m IH]; intros k w w' Hg; cbn [seq for_each existsb].
  - intros [= <-]. apply Steady_Begin, Step_refl.
  - intros ([] & w1 & H1 & H2)%bind_inv_ok.
    apply call_train_begin in H1; [|assumption].
    apply IH in H2; [|eapply Begin_good; eauto].
    replace (existsb (checkpoint_at (callbacks w)) (seq (S k) m))
      with (existsb (checkpoint_at (callbacks w1)) (seq (S k) m)).
    + eapply Begin_trans; eauto.
    + apply existsb_pointwise. intros i. apply checkpoint_at_same_shape, H1.
Qed.

Lemma existsb_lookup {A} (p : A -> bool) (l : list A) :
  existsb (fun i => match l !! i with Some x => p x | None => false end)
    (seq 0 (length l))
  = existsb p l.
Proof.
  induction l as [|x l IH]; [reflexivity|].
  cbn [length seq existsb]. cbn [lookup list_lookup]. f_equal.
  rewrite <- seq_shift, existsb_through_map. exact IH.
Qed.

Lemma fire_train_begin n w w' :
  Forall keeps_history (callbacks w) ->
  fire (OnTrainBegin n) w = (Ok tt, w') ->
  Begin w w' (existsb is_checkpoint (callbacks w)).
Proof.
  intros Hg. unfold fire, bind, get.
  intros H%for_each_train_begin; [|assumption].
  unfold checkpoint_at in H. now rewrite existsb_lookup in H.
Qed.

(** the epoch *)
Lemma training_phase_step train e w w' :
  Forall keeps_history (callbacks w) ->
  training_phase train e w = (Ok tt, w') ->
  Step w w' 1 (fun j => if (j <? length (callbacks w))%nat then [e] else []).
Proof.
  intros Hg. unfold training_phase.
  intros ([] & w1 & H1 & H)%bind_inv_ok.
  unfold modify in H1. injection H1 as <-.
  apply bind_inv_ok in H as ([] & w2 & H2 & H).
  apply fire_epoch_begin in H2. cbn [callbacks set_training] in H2.
  assert (S2 : Step w w2 0
                 (fun j => if (j <? length (callbacks w))%nat
                           then [e] else [])).
  { eapply Steady_Step; [|exact H2]. steady_setter. }
  assert (G2 := Step_good _ _ _ _ S2 Hg).
  apply bind_inv_ok in H as (acc & w3 & H3 & H).
  apply (steady_fold_each _ _ (fun a x => steady_train_batch e a x) _ w2 G2)
    in H3.
  apply bind_inv_ok in H as (l & w4 & H4 & H).
  unfold lift in H4. injection H4 as _ <-.
  apply bind_inv_ok in H as ([] & w5 & H5 & H).
  unfold modify in H5, H. injection H5 as <-. injection H as <-.
  eapply Step_ext;
    [| |eapply Step_trans; [eapply Step_Steady; [exact S2|exact H3]|]].
  3: { instantiate (1 := fun _ => []). instantiate (1 := 1%nat).
       split; [reflexivity | reflexivity |
              | intros j; cbn; now rewrite app_nil_r].
       cbn. rewrite length_app. cbn. lia. }
  - reflexivity.
  - intros j. cbv beta. apply app_nil_r.
Qed.

Lemma epoch_step train valid e w w' :
  Forall keeps_history (callbacks w) ->
  epoch train valid e w = (Ok tt, w') ->
  Step w w' 1 (fun j => if (j <? length (callbacks w))%nat then [e] else []).
Proof.
  intros Hg. unfold epoch.
  intros ([] & w1 & H1 & H)%bind_inv_ok.
  apply training_phase_step in H1; [|assumption].
  eapply Step_Steady; [exact H1|].
  assert (G1 := Step_good _ _ _ _ H1 Hg).
  revert H. generalize w'. generalize tt.
  change (okpost (bind (validation_phase valid e)
                    (fun _ => bind (fire (OnEpochEnd e))
                                (fun _ => scheduler_step)))
            w1 (fun _ w2 => Steady w1 w2)).
  revert G1. generalize w1.
  change (steady (bind (validation_phase valid e)
                    (fun _ => bind (fire (OnEpochEnd e))
                                (fun _ => scheduler_step)))).
  apply steady_bind; [apply steady_validation_phase | intros _].
  apply steady_bind; [now apply steady_fire | intros _].
  apply steady_scheduler_step.
Qed.

Lemma epochs_loop train valid l : forall w w',
  Forall keeps_history (callbacks w) ->
  for_each l (epoch train valid) w = (Ok tt, w') ->
  Step w w' (length l)
    (fun j => if (j <? length (callbacks w))%nat then l else []).
Proof.
  induction l as [|e l IH]; intros w w' Hg; cbn [for_each length].
  - intros [= <-]. eapply Step_ext; [reflexivity| |apply Step_refl].
    intros j. cbv beta. now destruct (j <? _)%nat.
  - intros ([] & w1 & H1 & H2)%bind_inv_ok.
    apply epoch_step in H1; [|assumption].
    apply IH in H2; [|eapply Step_good; eauto].
    rewrite (Step_callbacks_length _ _ _ _ H1) in H2.
    eapply Step_ext; [| |exact (Step_trans _ _ _ _ _ _ _ H1 H2)];
      [reflexivity|].
    intros j. cbv beta. now destruct (j <? _)%nat.
Qed.

Lemma completes_fit_loader n train valid w w' :
  completes n train valid w w' -> fit_loader n train valid w = (Ok tt, w').
Proof.
  intros (w0 & wb & H0 & H1 & H2). unfold fit_loader.
  rewrite (bind_ok _ _ _ _ _ H0).
  erewrite bind_ok; [exact H2|].
  unfold except_KeyboardInterrupt. now rewrite H1.
Qed.

Lemma existsb_is_checkpoint_shape (l l' : list Callback) :
  shape <$> l' = shape <$> l ->
  existsb is_checkpoint l' = existsb is_checkpoint l.
Proof.
  assert (H : forall l0 : list Callback,
             existsb is_checkpoint (shape <$> l0) = existsb is_checkpoint l0).
  { induction l0 as [|x l0 IH]; cbn; [reflexivity|].
    now rewrite is_checkpoint_shape, IH. }
  intros E. now rewrite <- (H l'), E, H.
Qed.

Lemma length_range a b : length (range a b) = Z.to_nat (b - a).
Proof. unfold range. now rewrite length_map, length_seq. Qed.

Lemma fit_once n train valid w w' :
  Forall keeps_history (callbacks w) ->
  0 <= n ->
  completes n train valid w w' ->
  let s := if existsb is_checkpoint (callbacks w)
           then len (train_losses (metrics w)) else last_epoch w in
  shape <$> callbacks w' = shape <$> callbacks w /\
  last_epoch w' = s /\
  len (train_losses (metrics w')) = len (train_losses (metrics w)) + n /\
  forall j, (j < length (callbacks w))%nat ->
    epochs_seen j (trace w')
    = epochs_seen j (trace w) ++ range (s + 1) (s + n + 1).
Proof.
  intros Hg Hn (w0 & wb & H0 & H1 & H2) s.
  apply (steady_fit_setup train valid w Hg) in H0.
  assert (G0 := Step_good _ _ _ _ H0 Hg).
  unfold fit_body in H1. apply bind_inv_ok in H1 as ([] & w1 & Hb & H1).
  apply fire_train_begin in Hb; [|assumption].
  assert (G1 := Begin_good _ _ _ Hb G0).
  unfold bind at 1, get in H1.
  apply epochs_loop in H1; [|assumption].
  assert (Gb := Step_good _ _ _ _ H1 G1).
  apply (steady_fire (OnTrainEnd n) I wb Gb) in H2.
  pose proof (Step_Steady _ _ _ _ _ H1 H2) as S1.
  destruct H0 as [a0 l0 h0 e0]. destruct Hb as [ab hb eb lb].
  destruct S1 as [a1 l1 h1 e1].
  rewrite (existsb_is_checkpoint_shape _ _ a0) in lb.
  rewrite Nat.add_0_r in h0.
  assert (Hs : last_epoch w1 = s).
  { rewrite lb. unfold s, len. now rewrite h0, l0. }
  rewrite Hs in *. rewrite length_range in h1.
  repeat split.
  - congruence.
  - congruence.
  - unfold len. rewrite h1, hb, h0. lia.
  - intros j Hj. rewrite e1, eb, e0, app_nil_r. f_equal.
    assert (Hlen : length (callbacks w1) = length (callbacks w)).
    { apply (f_equal length) in ab, a0. rewrite !length_fmap in *. congruence. }
    rewrite Hlen.
    destruct (Nat.ltb_spec j (length (callbacks w))); [reflexivity | lia].
Qed.

End FitFacts.

(** Two fits in a row.  Take a trainer none of whose callbacks reloads a
    stored checkpoint, and two calls of [fit_loader], with [n1] and then
    [n2] epochs, that both run to completion.  The training history grows by
    [n1 + n2] entries.  The epochs of a call are numbered consecutively
    from [last_epoch + 1], with the value [last_epoch] has once the
    [on_train_begin] round is over, and nothing in [fit_loader] assigns
    [last_epoch].  The [on_train_begin] of a registered [ModelCheckpoint]
    sets it to the length of the history: with one, the numbers of the
    second call continue those of the first.  With none, [last_epoch] is
    what it was before the first call, and the second call starts its
    numbers over. *)
Theorem fit_twice_extends_history_and_epochs `{B : Backend}
    (n1 n2 : Z) (train1 train2 : Loader) (valid1 valid2 : option Loader)
    (w w1 w2 : World) :
  Forall keeps_history (callbacks w) ->
  0 <= n1 ->
  0 <= n2 ->
  completes n1 train1 valid1 w w1 ->
  completes n2 train2 valid2 w1 w2 ->
  let h := len (train_losses (metrics w)) in
  let ck := existsb is_checkpoint (callbacks w) in
  let s1 := if ck then h else last_epoch w in
  let s2 := if ck then h + n1 else last_epoch w in
  DeepNetTrainer.fit_loader n1 train1 valid1 w = (Ok tt, w1) /\
  DeepNetTrainer.fit_loader n2 train2 valid2 w1 = (Ok tt, w2) /\
  len (train_losses (metrics w2)) = h + n1 + n2 /\
  last_epoch w1 = s1 /\
  last_epoch w2 = s2 /\
  forall j, (j < length (callbacks w))%nat ->
    epochs_seen j (trace w2)
    = epochs_seen j (trace w)
      ++ range (s1 + 1) (s1 + n1 + 1) ++ range (s2 + 1) (s2 + n2 + 1).
Proof.
  intros Hg Hn1 Hn2 C1 C2 h ck s1 s2.
  destruct (fit_once _ _ _ _ _ Hg Hn1 C1) as (a1 & l1 & h1 & e1).
  assert (G1 : Forall keeps_history (callbacks w1))
    by (eapply keeps_history_same_shape; eauto).
  destruct (fit_once _ _ _ _ _ G1 Hn2 C2) as (a2 & l2 & h2 & e2).
  rewrite (existsb_is_checkpoint_shape _ _ a1) in l2, e2.
  fold ck in l1, e1, l2, e2. fold h in l1, e1, h1. fold s1 in l1, e1.
  assert (Hs2 : (if ck then len (train_losses (metrics w1))
                 else last_epoch w1) = s2).
  { unfold s2. rewrite h1, l1. unfold s1. now destruct ck. }
  rewrite Hs2 in l2, e2.
  assert (Hlen : length (callbacks w1) = length (callbacks w)).
  { apply (f_equal length) in a1. now rewrite !length_fmap in a1. }
  repeat split; auto using completes_fit_loader.
  - lia.
  - intros j Hj. rewrite e2, e1 by lia. now rewrite app_assoc.
Qed.

Lemma fit_twice_extends_history_and_epochs_witness :
  let d := Bench.loader (Bench.script [1; 1; 1]%Q) 1 in
  let w := Bench.trainer None
             [ModelCheckpoint.__init__ "ck/best" true false; Plain] in
  let w1 := snd (DeepNetTrainer.fit_loader 2 d None w) in
  let w2 := snd (DeepNetTrainer.fit_loader 1 d None w1) in
  (Forall keeps_history (callbacks w) /\
   0 <= 2 /\
   0 <= 1 /\
   completes 2 d None w w1 /\
   completes 1 d None w1 w2) /\
  len (train_losses (metrics w2)) = 3 /\
  last_epoch w1 = 0 /\
  last_epoch w2 = 2 /\
  epochs_seen 1 (trace w2) = [1; 2; 3].
Proof.
  intros d w w1 w2.
  assert (Hg : Forall keeps_history (callbacks w))
    by (repeat constructor).
  assert (C1 : completes 2 d None w w1).
  { exists (snd (DeepNetTrainer.fit_setup d None w)).
    exists (snd (DeepNetTrainer.fit_body 2 d None
                   (snd (DeepNetTrainer.fit_setup d None w)))).
    split; [|split]; vm_compute; reflexivity. }
  assert (C2 : completes 1 d None w1 w2).
  { exists (snd (DeepNetTrainer.fit_setup d None w1)).
    exists (snd (DeepNetTrainer.fit_body 1 d None
                   (snd (DeepNetTrainer.fit_setup d None w1)))).
    split; [|split]; vm_compute; reflexivity. }
  split; [split; [exact Hg|]; split; [lia|]; split; [lia|];
          split; [exact C1 | exact C2]|].
  destruct (fit_twice_extends_history_and_epochs (B := Bench.scripted)
              2 1 d d None None w w1 w2 Hg ltac:(lia) ltac:(lia) C1 C2)
    as (_ & _ & Hh & Hl1 & Hl2 & He).
  specialize (He 1%nat ltac:(vm_compute; lia)).
  vm_compute in Hh, Hl1, Hl2, He. vm_compute. auto.
Defined.

(** C1 on a fresh trainer with the base callback and no checkpointer,
    fitted twice for two epochs.  [fit_loader] numbers its epochs from
    [last_epoch + 1], to go on where the history ends, but assigns
    [last_epoch] nowhere; only [ModelCheckpoint.on_train_begin] and
    [load_state] bring it up to the length of the history.  After the first
    fit [last_epoch] is still 0, not 2, and the second fit passes the epochs
    1 and 2 to the callback again, while the history has the four
    entries. *)
Lemma fit_twice_restarts_epoch_numbers :
  let d := Bench.loader (Bench.script [1; 1; 1; 1]%Q) 1 in
  let w := Bench.trainer None [Plain] in
  let r1 := DeepNetTrainer.fit_loader 2 d None w in
  let r2 := DeepNetTrainer.fit_loader 2 d None (snd r1) in
  fst r1 = Ok tt /\
  fst r2 = Ok tt /\
  last_epoch w = 0 /\
  last_epoch (snd r1) = 0 /\
  last_epoch (snd r1) <> last_epoch w + 2 /\
  epochs_seen 0 (trace (snd r2)) = [1; 2; 1; 2] /\
  length (train_losses (metrics (snd r2))) = 4%nat.
Proof. vm_compute. repeat split; discriminate. Qed.

(** With a checkpointer built with the default [reset=False], the second
    fit first reloads the checkpoint of the best epoch, here the third of
    four: the history is cut back to three entries and epoch 4 is run
    again. *)
Example default_checkpointer_resumes_from_best :
  let d := Bench.loader (Bench.script [1 # 2; 1 # 2; 2 # 5; 3 # 5]) 1 in
  let w := Bench.trainer None
             [ModelCheckpoint.__init__ "ck/best" false false] in
  let r1 := DeepNetTrainer.fit_loader 4 d None w in
  let r2 := DeepNetTrainer.fit_loader 1 d None (snd r1) in
  fst r1 = Ok tt /\
  fst r2 = Ok tt /\
  epochs_seen 0 (trace (snd r2)) = [1; 2; 3; 4; 4] /\
  train_losses (metrics (snd r2)) = [1 # 2; 1 # 2; 2 # 5; 3 # 5]%Q.
Proof. vm_compute. repeat split. Qed.

(** ** The cyclical schedule *)

(** *** Floats *)

Lemma int_truediv_max a b :
  int_truediv a (Z.max 1 b) = Ok (rounded_quotient a (Z.max 1 b)).
Proof.
  unfold int_truediv. destruct (Z.eqb_spec (Z.max 1 b) 0); [lia | reflexivity].
Qed.





Section RestartsFacts.
Import SGDRestarts.
Variable cos : float -> float.

Lemma n_batches_frame s s' nb :
  batches_per_epoch s nb ->
  _n_batches s' = _n_batches s ->
  trainer_n_batches s' = trainer_n_batches s ->
  n_batches s' = (Ok nb, s').
Proof.
  unfold batches_per_epoch, n_batches, bind, get, ret, raise.
  intros H -> ->.
  destruct (_n_batches s); [now injection H as ->|].
  destruct (trainer_n_batches s); [now injection H as ->|discriminate].
Qed.

(** [get_lr] changes the state as [advance] says and returns the cosine
    curve at the new state. *)
Lemma get_lr_spec lr e b s nb :
  batches_per_epoch s nb ->
  Ti (advance e s) <> 0 ->
  get_lr cos lr e b s
  = (Ok (annealed cos (eta_min s) lr (phase (advance e s) nb b)
           (Ti (advance e s))),
     advance e s).
Proof.
  intros Hnb. unfold get_lr, advance, phase, bind, get, modify, ret, raise.
  destruct (last_epoch s =? -1); [|destruct (last_epoch s <? e)];
    cbn -[n_batches int_truediv];
    match goal with
    | |- context [if (?a =? ?b) then (fun s => _) else _] =>
        destruct (a =? b)
    end; cbn -[n_batches int_truediv];
    rewrite (n_batches_frame s _ nb Hnb) by reflexivity;
    cbn -[int_truediv]; rewrite int_truediv_max; unfold lift; cbn;
    intros HT;
    match goal with
    | |- context [if (?a =? 0) then _ else _] =>
        destruct (Z.eqb_spec a 0); [contradiction|reflexivity]
    end.
Qed.

Lemma pow_pos_pos a n : 0 < a -> 0 <= n -> 0 < a ^ n.
Proof. intros. apply Z.pow_pos_nonneg; lia. Qed.

Lemma advance_wf e s : wf s -> wf (advance e s).
Proof.
  intros (H1 & H2 & H3 & H4). unfold advance, wf.
  destruct (last_epoch s =? -1); [|destruct (last_epoch s <? e)]; cbn;
    match goal with |- context [if (?a =? ?b) then _ else _] =>
      destruct (a =? b) end; cbn; repeat split; try lia;
    apply Z.mul_pos_pos; auto; apply pow_pos_pos; lia.
Qed.

Ltac z_cases :=
  repeat (cbn -[Z.eqb Z.ltb Z.pow Z.mul Z.add] in *;
          match goal with
          | |- context [if (?a =? ?b) then _ else _] =>
              destruct (Z.eqb_spec a b)
          | |- context [if (?a <? ?b) then _ else _] =>
              destruct (Z.ltb_spec a b)
          end);
  cbn -[Z.eqb Z.ltb Z.pow Z.mul Z.add] in *; try lia; try reflexivity.

Lemma advance_idem e s : wf s -> advance e (advance e s) = advance e s.
Proof.
  intros (H1 & H2 & H3 & H4).
  assert (HP : 0 < To s * Tmul s ^ (restarts s + 1)).
  { apply Z.mul_pos_pos; auto; apply pow_pos_pos; lia. }
  destruct s as [eta To Ti Tmul r Tcur nb hist le pg tnb].
  cbn -[Z.pow Z.mul Z.add] in *.
  unfold advance. z_cases.
Qed.

Lemma advance_set_param_groups e g s :
  advance e (set_param_groups g s) = set_param_groups g (advance e s).
Proof. destruct s. unfold advance. z_cases. Qed.


Lemma advance_n_batches e s : _n_batches (advance e s) = _n_batches s.
Proof. destruct s. unfold advance. z_cases. Qed.

Lemma advance_trainer_n_batches e s :
  trainer_n_batches (advance e s) = trainer_n_batches s.
Proof. destruct s. unfold advance. z_cases. Qed.

Lemma advance_batches_per_epoch e s nb :
  batches_per_epoch s nb -> batches_per_epoch (advance e s) nb.
Proof.
  intros H. eapply n_batches_frame; [exact H|..].
  - apply advance_n_batches.
  - apply advance_trainer_n_batches.
Qed.

Lemma advance_eta_min e s : eta_min (advance e s) = eta_min s.
Proof. destruct s. unfold advance. z_cases. Qed.



Lemma set_param_groups_same s : set_param_groups (param_groups s) s = s.
Proof. now destruct s. Qed.

Lemma step_groups_spec e b nb todo :
  forall done s,
    batches_per_epoch s nb ->
    advance e s = s ->
    Ti s <> 0 ->
    param_groups s = done ++ todo ->
    step_groups cos done todo e b s
    = (Ok tt, set_param_groups (done ++ map (relr cos s nb b) todo) s).
Proof.
  induction todo as [|g todo IH]; intros done s Hnb Ha HT Hpg;
    cbn [step_groups map].
  - rewrite <- Hpg, set_param_groups_same. reflexivity.
  - assert (Hg : get_lr cos (initial_lr g) e b s
                 = (Ok (annealed cos (eta_min s) (initial_lr g)
                          (phase s nb b) (Ti s)), s)).
    { rewrite (get_lr_spec _ _ _ _ nb Hnb); rewrite Ha; auto. }
    rewrite (bind_ok _ _ _ _ _ Hg).
    unfold bind at 1, modify at 1.
    rewrite IH.
    + cbn. now rewrite <- app_assoc.
    + eapply n_batches_frame; [exact Hnb|reflexivity..].
    + now rewrite advance_set_param_groups, Ha.
    + exact HT.
    + cbn. now rewrite <- app_assoc.
Qed.

Lemma step_spec e b nb s :
  wf s ->
  batches_per_epoch s nb ->
  param_groups s <> [] ->
  step cos (Some e) (Some b) s
  = (Ok tt,
     set_last_epoch e
       (set_param_groups
          (map (relr cos (advance e s) nb b) (param_groups s))
          (advance e s))).
Proof.
  intros Hwf Hnb Hpg.
  pose proof (advance_wf e s Hwf) as (_ & _ & _ & HT).
  unfold step. unfold bind at 1, get.
  destruct (param_groups s) as [|g todo] eqn:E; [contradiction|].
  cbn [step_groups].
  assert (Hg : get_lr cos (initial_lr g) e b s
               = (Ok (annealed cos (eta_min s) (initial_lr g)
                        (phase (advance e s) nb b) (Ti (advance e s))),
                  advance e s)).
  { apply get_lr_spec; [assumption | lia]. }
  unfold bind at 1. unfold bind at 1. rewrite Hg. unfold bind at 1, modify at 1.
  rewrite (step_groups_spec e b nb).
  - unfold modify, relr, phase. cbn. rewrite advance_eta_min. reflexivity.
  - eapply n_batches_frame;
      [apply advance_batches_per_epoch, Hnb|reflexivity..].
  - now rewrite advance_set_param_groups, advance_idem.
  - cbn. lia.
  - reflexivity.
Qed.

(** C2, as the code has it.  [Tcur] counts the epochs of the current
    period, not its batches: a [step] adds one to it when the epoch is new
    ([last_epoch] is neither -1 nor at least [epoch]) and leaves it alone on
    the other batches of the epoch, whatever the number of parameter
    groups.  If the count then equals [Ti], the schedule restarts: [Tcur] is
    0, [restarts] is one more, and [Ti] is [To * Tmul ^ restarts];
    otherwise [restarts] and [Ti] are unchanged. *)
Theorem restart_schedule_counts_epochs (s : t) (e b nb : Z) :
  wf s -> batches_per_epoch s nb -> param_groups s <> [] ->
  let tick := if last_epoch s =? -1 then Tcur s
              else if last_epoch s <? e then Tcur s + 1 else Tcur s in
  exists s', step cos (Some e) (Some b) s = (Ok tt, s') /\
    last_epoch s' = e /\
    (tick = Ti s ->
     Tcur s' = 0 /\ restarts s' = restarts s + 1 /\
     Ti s' = To s * Tmul s ^ restarts s') /\
    (tick <> Ti s ->
     Tcur s' = tick /\ restarts s' = restarts s /\ Ti s' = Ti s).
Proof.
  intros Hwf Hnb Hpg tick. rewrite (step_spec e b nb s Hwf Hnb Hpg).
  eexists. split; [reflexivity|]. unfold tick. clear.
  destruct s. unfold advance. z_cases; repeat split; lia.
Qed.



























End RestartsFacts.

Section RestartsExamples.
Import SGDRestarts.

Lemma restart_schedule_counts_epochs_witness :
  let s := {| eta_min := 0.001; To := 4; Ti := 4; Tmul := 1;
              restarts := 0; Tcur := 1; _n_batches := Some 3;
              history := []; last_epoch := 1;
              param_groups := [{| initial_lr := 0.1; lr := 0.1 |}];
              trainer_n_batches := None |} in
  (wf s /\ batches_per_epoch s 3 /\ param_groups s <> []) /\
  exists s', step Bench.cos (Some 1) (Some 2) s = (Ok tt, s') /\
             Tcur s' = 1 /\ restarts s' = 0 /\ Ti s' = 4.
Proof.
  intros s.
  assert (Hwf : wf s) by (unfold wf; cbn; lia).
  assert (Hpg : param_groups s <> []) by discriminate.
  split; [split; [exact Hwf|]; split; [reflexivity | exact Hpg]|].
  destruct (restart_schedule_counts_epochs Bench.cos s 1 2 3 Hwf eq_refl Hpg)
    as (s' & Hs & _ & _ & H).
  (exists s'; split; [exact Hs|]). apply H. (cbn; lia).
Defined.

(** C2 as stated fails when an epoch has three batches: after the three
    batches of epoch 1 and the three of epoch 2, [Tcur] is 1, the number of
    epochs begun since the first, not 6, and it did not move within an
    epoch. *)
Lemma Tcur_unchanged_by_later_batches_of_an_epoch :
  let built := __init__ [0.1%float] (-1) 0.001 4 1 (Some 3) in
  let epoch1 := [(1, 0); (1, 1); (1, 2)] in
  let epoch2 := [(2, 0); (2, 1); (2, 2)] in
  let after := after Bench.cos in
  option_map Tcur (after built epoch1) = Some 0 /\
  option_map Tcur (after built (epoch1 ++ [(2, 0)])) = Some 1 /\
  option_map Tcur (after built (epoch1 ++ epoch2)) = Some 1 /\
  option_map Tcur (after built (epoch1 ++ epoch2)) <> Some 6.
Proof. vm_compute. repeat split; discriminate. Qed.


(** Registered with a fresh trainer, whose [on_train_begin] round sets
    [last_epoch] to 0 instead of -1, the schedule counts the first epoch
    too: the first restart comes with the fourth batch, the next ones every
    four batches. *)
Example restarts_under_a_trainer :
  let built := __init__ [0.1%float] (-1) 0.001 4 1 (Some 1) in
  let after n :=
    after_under_trainer Bench.cos built 0 1 (one_batch_epochs n) in
  option_map Tcur (after 1%nat) = Some 1 /\
  option_map restarts (after 3%nat) = Some 0 /\
  option_map restarts (after 4%nat) = Some 1 /\
  option_map restarts (after 7%nat) = Some 1 /\
  option_map restarts (after 8%nat) = Some 2.
Proof. vm_compute. repeat split. Qed.

(** The rate on the first batch of a period, [eta_min + (lr - eta_min)] up
    to the exact product by 2 and quotient by 2, is the initial rate only
    up to the rounding of the subtraction and the addition: with
    [eta_min=0.001] it is 0.1 for the initial rate 0.1, and the next float
    above 0.01 for the initial rate 0.01. *)
Example rate_at_period_start_is_rounded :
  let rates base :=
    option_map (fun s => map lr (param_groups s))
      (after Bench.cos (__init__ base (-1) 0.001 4 1 (Some 1)) [(1, 0)]) in
  rates [0.1%float] = Some [0.1%float] /\
  rates [0.01%float] = Some [0.010000000000000002%float] /\
  rates [0.01%float] <> Some [0.01%float].
Proof.
  vm_compute. split; [reflexivity|]. split; [reflexivity | discriminate].
Qed.


End RestartsExamples.
